(** * Funnel analytics dashboard: the aggregation core

    A shallow embedding of [src/components/analytics/funnel_dashboard.py]:
    [calculate_funnel_metrics], the abandonment classification inside
    [display_abandonment_analysis] and the per-property grouping inside
    [display_property_comparison], followed by the rows the four display
    functions print and one pass of the loop of [main].  Loading the sessions
    ([run_bigquery_query], [get_funnel_sessions]) is input and output and is
    not embedded.

    Conventions of the embedding.
    - Python [int] is [Z]; the counters are never bounded.
    - A [dict] with string keys is a [gmap string _]; [defaultdict] reads a
      missing key as its default, a plain [dict] raises [KeyError].
    - Exceptions are explicit: every operation that can raise in Python lives
      in the error monad [Py].
    - [a / b] on two ints is Python's true division.  Its result is the float
      nearest to the exact quotient; the embedding keeps the exact quotient as
      a rational ([Q]).  Rounding to nearest is monotone and leaves 0 and 1
      fixed, so order facts against 0 and 1 carry over to the floats.
    - A session is a [dict] read only through [.get(key, default)]; each key
      is an optional field and [None] stands for a missing key. *)

From stdpp Require Import gmap strings list fin_maps sorting.
From Stdlib Require Import QArith.

Local Open Scope string_scope.
Local Open Scope list_scope.
Local Open Scope Z_scope.

(** ** Python runtime fragments *)

Inductive PyExc := KeyError | IndexError | ValueError | ZeroDivisionError.

Inductive Py (A : Type) : Type :=
| Ok (a : A)
| Raise (e : PyExc).
Arguments Ok {A} a.
Arguments Raise {A} e.

#[global] Instance Py_ret : MRet Py := λ A a, Ok a.
#[global] Instance Py_bind : MBind Py := λ A B f m,
  match m with
  | Ok a => f a
  | Raise e => Raise e
  end.

(** [for x in xs: s = body(s, x)] with exceptions leaving the loop. *)
Fixpoint py_for {A S : Type} (xs : list A) (body : S → A → Py S) (s : S) : Py S :=
  match xs with
  | [] => Ok s
  | x :: xs' => s' ← body s x; py_for xs' body s'
  end.

(** [range(n)] *)
Definition range (n : nat) : list nat := seq 0 n.

(** [d[k]] on a plain dict *)
Definition dict_getitem {A} (d : gmap string A) (k : string) : Py A :=
  match d !! k with
  | Some v => Ok v
  | None => Raise KeyError
  end.

(** [d[k] += n] on a plain dict *)
Definition dict_iadd (d : gmap string Z) (k : string) (n : Z) : Py (gmap string Z) :=
  v ← dict_getitem d k; Ok (<[k := v + n]> d).

(** [d[k] += n] on a [defaultdict(int)] *)
Definition defaultdict_iadd (d : gmap string Z) (k : string) (n : Z) : gmap string Z :=
  <[k := default 0 (d !! k) + n]> d.

(** [d[k].append(x)] on a [defaultdict(list)] *)
Definition defaultdict_append (d : gmap string (list Z)) (k : string) (x : Z)
  : gmap string (list Z) :=
  <[k := default [] (d !! k) ++ [x]]> d.

(** [l[i]] for a non-negative index *)
Definition list_getitem {A} (l : list A) (i : nat) : Py A :=
  match l !! i with
  | Some v => Ok v
  | None => Raise IndexError
  end.

(** [l.index(x)] *)
Definition list_index (l : list string) (x : string) : Py nat :=
  match list_find (λ y, y = x) l with
  | Some (i, _) => Ok i
  | None => Raise ValueError
  end.

(** The exact value of [a / b] for [b] non-zero. *)
Definition quotient (a b : Z) : Q := (inject_Z a / inject_Z b)%Q.

(** [a / b] on ints *)
Definition py_truediv (a b : Z) : Py Q :=
  if decide (b = 0) then Raise ZeroDivisionError
  else Ok (quotient a b).

(** [sum(l)] *)
Definition py_sum (l : list Z) : Z := foldl Z.add 0 l.

(** ** Stage configuration *)

Definition STAGE_ORDER : list string :=
  [ "widget_activation";
    "search_configuration";
    "room_selection";
    "rate_selection";
    "booking_completion" ].

(** ** Session records *)

Record Session := {
  property_id : option string;
  duration_seconds : option Z;
  total_events : option Z;
  furthest_stage : option string;
  is_completed : option bool;
  is_abandoned : option bool;
  navigation_backs : option Z;
}.

(** [session.get(key, dflt)] *)
Definition get {A} (field : Session → option A) (dflt : A) (session : Session) : A :=
  default dflt (field session).

(** [session.get(key)] used as a condition: a missing key is falsy. *)
Definition get_truthy (field : Session → option bool) (session : Session) : bool :=
  default false (field session).

(** ** [calculate_funnel_metrics] *)

(** The local variables the main loop updates. *)
Module Acc.
Record t := {
  stage_entries : gmap string Z;
  stage_completions : gmap string Z;
  stage_abandonments : gmap string Z;
  stage_durations : gmap string (list Z);
  navigation_by_stage : gmap string Z;
  total_completed : Z;
  total_abandoned : Z;
}.
End Acc.

(** [{stage: 0 for stage in STAGE_ORDER}] *)
Definition zero_by_stage : gmap string Z :=
  foldl (λ d stage, <[stage := 0]> d) ∅ STAGE_ORDER.

Definition init_counters : Acc.t :=
  {| Acc.stage_entries := zero_by_stage;
     Acc.stage_completions := zero_by_stage;
     Acc.stage_abandonments := zero_by_stage;
     Acc.stage_durations := ∅;
     Acc.navigation_by_stage := ∅;
     Acc.total_completed := 0;
     Acc.total_abandoned := 0 |}.

(** Body of [for i in range(stage_index + 1)]. *)
Definition count_stage (completed : bool)
    (acc : gmap string Z * gmap string Z) (i : nat)
  : Py (gmap string Z * gmap string Z) :=
  let '(stage_entries, stage_completions) := acc in
  stage ← list_getitem STAGE_ORDER i;
  stage_entries ← dict_iadd stage_entries stage 1;
  if completed then
    stage' ← list_getitem STAGE_ORDER i;
    stage_completions ← dict_iadd stage_completions stage' 1;
    Ok (stage_entries, stage_completions)
  else Ok (stage_entries, stage_completions).

(** Body of [for session in sessions]. *)
Definition process_session (st : Acc.t) (session : Session) : Py Acc.t :=
  let furthest := get furthest_stage "unknown" session in
  let completed := get is_completed false session in
  let abandoned := get is_abandoned false session in
  let duration := get duration_seconds 0 session in
  let nav_backs := get navigation_backs 0 session in
  let total_completed :=
    if completed then Acc.total_completed st + 1 else Acc.total_completed st in
  '(total_abandoned, stage_abandonments) ←
    (if abandoned then
       if decide (is_Some (Acc.stage_abandonments st !! furthest)) then
         d ← dict_iadd (Acc.stage_abandonments st) furthest 1;
         Ok (Acc.total_abandoned st + 1, d)
       else Ok (Acc.total_abandoned st + 1, Acc.stage_abandonments st)
     else Ok (Acc.total_abandoned st, Acc.stage_abandonments st));
  if decide (furthest ∈ STAGE_ORDER) then
    stage_index ← list_index STAGE_ORDER furthest;
    '(stage_entries, stage_completions) ←
      py_for (range (stage_index + 1)) (count_stage completed)
             (Acc.stage_entries st, Acc.stage_completions st);
    Ok {| Acc.stage_entries := stage_entries;
          Acc.stage_completions := stage_completions;
          Acc.stage_abandonments := stage_abandonments;
          Acc.stage_durations :=
            defaultdict_append (Acc.stage_durations st) furthest duration;
          Acc.navigation_by_stage :=
            if decide (nav_backs > 0)
            then defaultdict_iadd (Acc.navigation_by_stage st) furthest nav_backs
            else Acc.navigation_by_stage st;
          Acc.total_completed := total_completed;
          Acc.total_abandoned := total_abandoned |}
  else
    Ok {| Acc.stage_entries := Acc.stage_entries st;
          Acc.stage_completions := Acc.stage_completions st;
          Acc.stage_abandonments := stage_abandonments;
          Acc.stage_durations := Acc.stage_durations st;
          Acc.navigation_by_stage := Acc.navigation_by_stage st;
          Acc.total_completed := total_completed;
          Acc.total_abandoned := total_abandoned |}.

(** The key [f"{from_stage}_to_{to_stage}"]. *)
Definition conv_key (from_stage to_stage : string) : string :=
  from_stage +:+ "_to_" +:+ to_stage.

(** Body of [for i in range(len(STAGE_ORDER) - 1)]. *)
Definition conversion_step (stage_entries : gmap string Z)
    (conversion_rates : gmap string Q) (i : nat) : Py (gmap string Q) :=
  from_stage ← list_getitem STAGE_ORDER i;
  to_stage ← list_getitem STAGE_ORDER (i + 1);
  n_from ← dict_getitem stage_entries from_stage;
  if decide (n_from > 0) then
    n_to ← dict_getitem stage_entries to_stage;
    n_from' ← dict_getitem stage_entries from_stage;
    rate ← py_truediv n_to n_from';
    Ok (<[conv_key from_stage to_stage := rate]> conversion_rates)
  else Ok conversion_rates.

(** Body of [for stage, durations in stage_durations.items()]. *)
Definition average_step (stage : string) (durations : list Z)
    (acc : Py (gmap string Q)) : Py (gmap string Q) :=
  avg_durations ← acc;
  match durations with
  | [] => Ok avg_durations
  | _ :: _ =>
      avg ← py_truediv (py_sum durations) (Z.of_nat (length durations));
      Ok (<[stage := avg]> avg_durations)
  end.

(** The returned dict, one field per key. *)
Record FunnelMetrics := {
  total_sessions : Z;
  completed_sessions : Z;
  abandoned_sessions : Z;
  overall_conversion : Q;
  stage_entries : gmap string Z;
  stage_completions : gmap string Z;
  stage_abandonments : gmap string Z;
  conversion_rates : gmap string Q;
  avg_durations : gmap string Q;
  navigation_by_stage : gmap string Z;
}.

(** What the function returns: [{}] or the ten-key dict. *)
Inductive MetricsDict :=
| EmptyDict
| Metrics (m : FunnelMetrics).

Definition calculate_funnel_metrics (sessions : list Session) : Py MetricsDict :=
  match sessions with
  | [] => Ok EmptyDict
  | _ :: _ =>
      st ← py_for sessions process_session init_counters;
      conversion_rates ←
        py_for (range (length STAGE_ORDER - 1))
               (conversion_step (Acc.stage_entries st)) ∅;
      widget ← dict_getitem (Acc.stage_entries st) "widget_activation";
      overall_conversion ←
        (if decide (widget > 0) then
           widget' ← dict_getitem (Acc.stage_entries st) "widget_activation";
           py_truediv (Acc.total_completed st) widget'
         else Ok 0%Q);
      avg_durations ← map_fold average_step (Ok ∅) (Acc.stage_durations st);
      Ok (Metrics
            {| total_sessions := Z.of_nat (length sessions);
               completed_sessions := Acc.total_completed st;
               abandoned_sessions := Acc.total_abandoned st;
               overall_conversion := overall_conversion;
               stage_entries := Acc.stage_entries st;
               stage_completions := Acc.stage_completions st;
               stage_abandonments := Acc.stage_abandonments st;
               conversion_rates := conversion_rates;
               avg_durations := avg_durations;
               navigation_by_stage := Acc.navigation_by_stage st |})
  end.

(** [if not metrics] in [display_funnel_visualization]: an empty dict is falsy. *)
Definition metrics_falsy (d : MetricsDict) : bool :=
  match d with
  | EmptyDict => true
  | Metrics _ => false
  end.

(** [conversion_rates.get(conv_key, 0)] as the display code reads a rate. *)
Definition displayed_rate (conversion_rates : gmap string Q) (key : string) : Q :=
  default 0%Q (conversion_rates !! key).

(** ** [display_abandonment_analysis]: the counting loop *)

(** The [if]/[elif] chain choosing the key of [abandonment_reasons]. *)
Definition abandonment_reason (session : Session) : string :=
  let nav_backs := get navigation_backs 0 session in
  let duration := get duration_seconds 0 session in
  let events := get total_events 0 session in
  if decide (nav_backs > 3) then "Excessive Navigation"
  else if decide (duration < 30) then "Quick Bounce"
  else if decide (events < 5) then "Low Engagement"
  else "Other/Timeout".

(** Body of [for session in sessions]; the state is
    [(abandonment_reasons, abandonment_stages)]. *)
Definition analyse_session (acc : gmap string Z * gmap string Z) (session : Session)
  : gmap string Z * gmap string Z :=
  let '(abandonment_reasons, abandonment_stages) := acc in
  if get_truthy is_abandoned session then
    let stage := get furthest_stage "unknown" session in
    (defaultdict_iadd abandonment_reasons (abandonment_reason session) 1,
     defaultdict_iadd abandonment_stages stage 1)
  else acc.

Definition abandonment_analysis (sessions : list Session)
  : gmap string Z * gmap string Z :=
  foldl analyse_session (∅, ∅) sessions.

(** ** [display_property_comparison]: the grouping loop *)

Module PropertyMetrics.
Record t := {
  sessions : Z;
  completions : Z;
  abandonments : Z;
  stages : gmap string Z;
}.
End PropertyMetrics.

(** The factory of [defaultdict(lambda: {...})]. *)
Definition property_default : PropertyMetrics.t :=
  {| PropertyMetrics.sessions := 0; PropertyMetrics.completions := 0;
     PropertyMetrics.abandonments := 0; PropertyMetrics.stages := ∅ |}.

(** [property_metrics[prop]] followed by an update of the entry in place. *)
Definition property_update (f : PropertyMetrics.t → PropertyMetrics.t) (prop : string)
    (property_metrics : gmap string PropertyMetrics.t)
  : gmap string PropertyMetrics.t :=
  <[prop := f (default property_default (property_metrics !! prop))]>
    property_metrics.

(** Body of [for session in sessions]. *)
Definition property_step (property_metrics : gmap string PropertyMetrics.t)
    (session : Session) : gmap string PropertyMetrics.t :=
  let prop := get property_id "Unknown" session in
  let pm1 :=
    property_update
      (λ e, {| PropertyMetrics.sessions := PropertyMetrics.sessions e + 1;
               PropertyMetrics.completions := PropertyMetrics.completions e;
               PropertyMetrics.abandonments := PropertyMetrics.abandonments e;
               PropertyMetrics.stages := PropertyMetrics.stages e |}) prop property_metrics in
  let pm2 :=
    if get_truthy is_completed session then
      property_update
        (λ e, {| PropertyMetrics.sessions := PropertyMetrics.sessions e;
                 PropertyMetrics.completions := PropertyMetrics.completions e + 1;
                 PropertyMetrics.abandonments := PropertyMetrics.abandonments e;
                 PropertyMetrics.stages := PropertyMetrics.stages e |}) prop pm1
    else pm1 in
  let pm3 :=
    if get_truthy is_abandoned session then
      property_update
        (λ e, {| PropertyMetrics.sessions := PropertyMetrics.sessions e;
                 PropertyMetrics.completions := PropertyMetrics.completions e;
                 PropertyMetrics.abandonments := PropertyMetrics.abandonments e + 1;
                 PropertyMetrics.stages := PropertyMetrics.stages e |}) prop pm2
    else pm2 in
  let stage := get furthest_stage "unknown" session in
  if decide (stage ∈ STAGE_ORDER) then
    property_update
      (λ e, {| PropertyMetrics.sessions := PropertyMetrics.sessions e;
               PropertyMetrics.completions := PropertyMetrics.completions e;
               PropertyMetrics.abandonments := PropertyMetrics.abandonments e;
               PropertyMetrics.stages := defaultdict_iadd (PropertyMetrics.stages e) stage 1 |}) prop pm3
  else pm3.

Definition property_comparison (sessions : list Session) : gmap string PropertyMetrics.t :=
  foldl property_step ∅ sessions.

(** Sum of the ["sessions"] entries over all properties. *)
Definition partition_total (property_metrics : gmap string PropertyMetrics.t) : Z :=
  map_fold (λ _ e acc, PropertyMetrics.sessions e + acc) 0 property_metrics.

(** ** The rows the display loops visit

    The display functions print to the terminal.  The embedding keeps, for
    the loops of [display_abandonment_analysis] and
    [display_property_comparison], the sequence of rows each loop visits and
    the numbers printed in a row; colours and number formatting are left
    out.  A Python dict iterates in the order in which its keys were first
    written, so that order is tracked next to the map. *)

Definition STAGE_NAMES : gmap string string :=
  list_to_map
    [ ("widget_activation", "Widget Activation");
      ("search_configuration", "Search & Configuration");
      ("room_selection", "Room Selection");
      ("rate_selection", "Rate Selection");
      ("booking_completion", "Booking Completion") ].

(** The key order of a dict after [k] is written: a new key goes last. *)
Definition note_key (order : list string) (k : string) : list string :=
  if decide (k ∈ order) then order else order ++ [k].

(** [d.items()] of a dict whose keys were first written in the order [order]. *)
Definition dict_items {A} (order : list string) (d : gmap string A)
  : list (string * A) :=
  omap (λ k, (λ v, (k, v)) <$> d !! k) order.

(** [sorted(items, key=key, reverse=True)]: descending by [key], items with
    equal keys stay in their original order (the sort is stable, which fixes
    its result). *)
Fixpoint insert_desc {A} (key : A → Z) (x : A) (l : list A) : list A :=
  match l with
  | [] => [x]
  | y :: l' =>
      if decide (key y ≤ key x) then x :: y :: l' else y :: insert_desc key x l'
  end.

Definition py_sorted_desc {A} (key : A → Z) (l : list A) : list A :=
  foldr (insert_desc key) [] l.

(** Key order of [abandonment_reasons] after the counting loop. *)
Definition reasons_order (sessions : list Session) : list string :=
  foldl (λ order session,
           if get_truthy is_abandoned session
           then note_key order (abandonment_reason session)
           else order) [] sessions.

(** [for stage in STAGE_ORDER: if stage in abandonment_stages: ...]: the
    rows (display name, count) printed under "Abandonments by Stage". *)
Definition abandonment_stage_rows (abandonment_stages : gmap string Z)
  : Py (list (string * Z)) :=
  py_for STAGE_ORDER
    (λ rows stage,
       if decide (is_Some (abandonment_stages !! stage)) then
         let count := default 0 (abandonment_stages !! stage) in
         name ← dict_getitem STAGE_NAMES stage;
         Ok (rows ++ [(name, count)])
       else Ok rows) [].

(** [sorted(abandonment_reasons.items(), key=lambda x: x[1], reverse=True)]:
    the rows printed under "Abandonment Reasons". *)
Definition sorted_reasons (sessions : list Session) : list (string * Z) :=
  py_sorted_desc snd
    (dict_items (reasons_order sessions) (abandonment_analysis sessions).1).

(** Key order of [property_metrics] after the grouping loop. *)
Definition property_order (sessions : list Session) : list string :=
  foldl (λ order session, note_key order (get property_id "Unknown" session))
        [] sessions.

(** [len(property_metrics) > 1]: whether the comparison is printed at all. *)
Definition comparison_shown (sessions : list Session) : bool :=
  bool_decide (1 < size (property_comparison sessions))%nat.

(** [sorted(property_metrics.items(), key=lambda x: x[1]["sessions"],
    reverse=True)[:10]]: the properties the comparison lists. *)
Definition ranked_properties (sessions : list Session)
  : list (string * PropertyMetrics.t) :=
  take 10
    (py_sorted_desc (λ item, PropertyMetrics.sessions item.2)
       (dict_items (property_order sessions) (property_comparison sessions))).

(** [conv_rate = completions / sessions if sessions > 0 else 0] *)
Definition conv_rate (metrics : PropertyMetrics.t) : Py Q :=
  if decide (PropertyMetrics.sessions metrics > 0)
  then py_truediv (PropertyMetrics.completions metrics)
                  (PropertyMetrics.sessions metrics)
  else Ok 0%Q.

(** ** The display functions and one pass of [main]

    Each display function is embedded as the rows it prints, with the
    exceptions its dict and list accesses can raise.  What is computed from
    these numbers in floating point for the terminal only (the bar width
    [int(ratio * max_width)], the percentage [ratio * 100], the colour
    thresholds, the split of a duration into minutes and seconds) is not
    part of a row. *)

(** [metrics[key]] on the dict returned by [calculate_funnel_metrics]: the
    empty dict has no key. *)
Definition metrics_getitem {A} (metrics : MetricsDict) (field : FunnelMetrics → A)
  : Py A :=
  match metrics with
  | EmptyDict => Raise KeyError
  | Metrics m => Ok (field m)
  end.

(** [metrics.get(key)] *)
Definition metrics_get {A} (metrics : MetricsDict) (field : FunnelMetrics → A)
  : option A :=
  match metrics with
  | EmptyDict => None
  | Metrics m => Some (field m)
  end.

(** One stage of the funnel as [display_funnel_visualization] prints it:
    [row_fill] is [entries / stage_entries["widget_activation"]], the ratio
    behind the bar and the percentage; [row_rate] is the conversion to the
    next stage, absent for the last stage. *)
Record FunnelRow := {
  row_name : string;
  row_entries : Z;
  row_completions : Z;
  row_abandonments : Z;
  row_fill : Q;
  row_rate : option Q;
}.

(** Body of [for i, stage in enumerate(STAGE_ORDER)]. *)
Definition funnel_row (stage_entries stage_completions stage_abandonments : gmap string Z)
    (conversion_rates : gmap string Q) (i : nat) (stage : string) : Py FunnelRow :=
  stage_name ← dict_getitem STAGE_NAMES stage;
  entries ← dict_getitem stage_entries stage;
  completions ← dict_getitem stage_completions stage;
  abandonments ← dict_getitem stage_abandonments stage;
  widget ← dict_getitem stage_entries "widget_activation";
  fill ← (if decide (widget > 0) then
            widget' ← dict_getitem stage_entries "widget_activation";
            py_truediv entries widget'
          else Ok 0%Q);
  rate ← (if decide (i < length STAGE_ORDER - 1)%nat then
            next_stage ← list_getitem STAGE_ORDER (i + 1);
            Ok (Some (displayed_rate conversion_rates (conv_key stage next_stage)))
          else Ok None);
  Ok {| row_name := stage_name;
        row_entries := entries;
        row_completions := completions;
        row_abandonments := abandonments;
        row_fill := fill;
        row_rate := rate |}.

Definition display_funnel_visualization (metrics : MetricsDict) : Py (list FunnelRow) :=
  if metrics_falsy metrics then Ok []
  else
    stage_entries ← metrics_getitem metrics stage_entries;
    stage_completions ← metrics_getitem metrics stage_completions;
    stage_abandonments ← metrics_getitem metrics stage_abandonments;
    conversion_rates ← metrics_getitem metrics conversion_rates;
    py_for (imap (λ i stage, (i, stage)) STAGE_ORDER)
      (λ rows '(i, stage),
         row ← funnel_row stage_entries stage_completions stage_abandonments
                          conversion_rates i stage;
         Ok (rows ++ [row])) [].

(** The four headline numbers and the rows (display name, average duration)
    of the stages that have an average. *)
Definition display_key_metrics (metrics : MetricsDict)
  : Py (Z * Z * Z * Q * list (string * Q)) :=
  total ← metrics_getitem metrics total_sessions;
  completed ← metrics_getitem metrics completed_sessions;
  abandoned ← metrics_getitem metrics abandoned_sessions;
  overall_conv ← metrics_getitem metrics overall_conversion;
  rows ←
    (match metrics_get metrics avg_durations with
     | Some avg =>
         if decide (avg ≠ ∅) then
           py_for STAGE_ORDER
             (λ rows stage,
                avg' ← metrics_getitem metrics avg_durations;
                if decide (is_Some (avg' !! stage)) then
                  avg'' ← metrics_getitem metrics avg_durations;
                  duration ← dict_getitem avg'' stage;
                  name ← dict_getitem STAGE_NAMES stage;
                  Ok (rows ++ [(name, duration)])
                else Ok rows) []
         else Ok []
     | None => Ok []
     end);
  Ok (total, completed, abandoned, overall_conv, rows).






(** ** Sample sessions *)

Definition mk_session (prop : string) (stage : string) (completed abandoned : bool)
    (duration events nav_backs : Z) : Session :=
  {| property_id := Some prop;
     duration_seconds := Some duration;
     total_events := Some events;
     furthest_stage := Some stage;
     is_completed := Some completed;
     is_abandoned := Some abandoned;
     navigation_backs := Some nav_backs |}.

Definition widget_only : Session :=
  mk_session "hotel-a" "widget_activation" false false 40 6 0.
Definition booked : Session :=
  mk_session "hotel-a" "booking_completion" true false 300 25 1.
Definition unknown_stage : Session :=
  mk_session "hotel-b" "unknown" false false 5 1 0.
Definition unknown_completed : Session :=
  mk_session "hotel-b" "unknown" true false 5 1 0.
Definition completed_and_abandoned : Session :=
  mk_session "hotel-a" "room_selection" true true 90 12 2.
Definition quick_bouncer : Session :=
  mk_session "hotel-a" "rate_selection" false true 10 2 0.

(** * Vocabulary of the statements

    Nothing below is part of the program: these are the notions the lemmas
    and the claims are stated with. *)

(** ** Stage order *)

(** Position of a stage name in [STAGE_ORDER], as [list.index] finds it. *)
Definition stage_pos (x : string) : option nat :=
  fst <$> list_find (λ y, y = x) STAGE_ORDER.

(** A map with exactly the stage names as keys. *)
Definition by_stage {A} (f : string → A) : gmap string A :=
  list_to_map ((λ x, (x, f x)) <$> STAGE_ORDER).

(** A map whose keys are the stage names where [f] is defined. *)
Definition by_stage_opt {A} (f : string → option A) : gmap string A :=
  omap id (by_stage f).

#[global] Arguments by_stage {A} f : simpl never.
#[global] Arguments by_stage_opt {A} f : simpl never.

(** [a] and [b] are neighbours in the stage order, [a] at position [i]. *)
Definition adjacent_at (i : nat) (a b : string) : Prop :=
  STAGE_ORDER !! i = Some a ∧ STAGE_ORDER !! S i = Some b.

Definition adjacent (a b : string) : Prop := ∃ i, adjacent_at i a b.

(** ** Counting sessions *)

(** Number of sessions of [l] that satisfy [P]. *)
Definition count (P : Session → Prop) `{!∀ s, Decision (P s)} (l : list Session) : Z :=
  Z.of_nat (length (filter P l)).

(** 1 when [P] holds, 0 otherwise. *)
Definition indicator (P : Prop) `{!Decision P} : Z := if decide P then 1 else 0.

(** The fields of a session as the main loop reads them. *)
Definition stage_of (s : Session) : string := get furthest_stage "unknown" s.
Definition completed (s : Session) : Prop := get is_completed false s = true.
Definition abandoned (s : Session) : Prop := get is_abandoned false s = true.

(** The furthest stage is one of the five stages (it is not "Unknown"). *)
Definition known_stage (s : Session) : Prop := stage_of s ∈ STAGE_ORDER.

(** The stages a session is counted into: its furthest stage and every
    earlier one. *)
Definition entered (s : Session) : list string :=
  match stage_pos (stage_of s) with
  | Some k => take (S k) STAGE_ORDER
  | None => []
  end.

(** Durations of the sessions whose furthest stage is [x], in input order. *)
Definition durations_at (x : string) (l : list Session) : list Z :=
  get duration_seconds 0 <$> filter (λ s, stage_of s = x) l.

(** Positive navigation-back counts of the sessions whose furthest stage is [x]. *)
Definition nav_backs_at (x : string) (l : list Session) : list Z :=
  get navigation_backs 0 <$>
    filter (λ s, stage_of s = x ∧ get navigation_backs 0 s > 0) l.

(** A dict entry created on first use: absent for the empty list. *)
Definition nonempty {A} (l : list A) : option (list A) :=
  match l with [] => None | _ :: _ => Some l end.

(** The loop variables described by counting over the sessions seen so far. *)
Definition tally (l : list Session) : Acc.t :=
  {| Acc.stage_entries := by_stage (λ x, count (λ s, x ∈ entered s) l);
     Acc.stage_completions :=
       by_stage (λ x, count (λ s, completed s ∧ x ∈ entered s) l);
     Acc.stage_abandonments :=
       by_stage (λ x, count (λ s, abandoned s ∧ stage_of s = x) l);
     Acc.stage_durations := by_stage_opt (λ x, nonempty (durations_at x l));
     Acc.navigation_by_stage :=
       by_stage_opt (λ x, py_sum <$> nonempty (nav_backs_at x l));
     Acc.total_completed := count completed l;
     Acc.total_abandoned := count abandoned l |}.

(** ** Rates and averages *)

(** The keys and values the conversion loop has written after [m] rounds. *)
Definition rates_upto (m : nat) (n : string → Z) (cr : gmap string Q) : Prop :=
  ∀ key r, cr !! key = Some r ↔
    ∃ i a b, (i < m)%nat ∧ adjacent_at i a b ∧ key = conv_key a b ∧
             n a > 0 ∧ r = quotient (n b) (n a).

(** The rates found in the result: one per adjacent pair whose source stage
    has entries. *)
Definition rates_spec (n : string → Z) (cr : gmap string Q) : Prop :=
  ∀ key r, cr !! key = Some r ↔
    ∃ a b, adjacent a b ∧ key = conv_key a b ∧ n a > 0 ∧ r = quotient (n b) (n a).

(** The mean of a non-empty list of durations. *)
Definition mean (durations : list Z) : option Q :=
  match durations with
  | [] => None
  | _ :: _ => Some (quotient (py_sum durations) (Z.of_nat (length durations)))
  end.

(** Entries of stage [x]: the sessions that reached [x] or a later stage. *)
Definition entries (l : list Session) (x : string) : Z :=
  count (λ s, x ∈ entered s) l.

(** The ten-key dict in terms of the tally, for a given rates table. *)
Definition summary (l : list Session) (cr : gmap string Q) : FunnelMetrics :=
  {| total_sessions := Z.of_nat (length l);
     completed_sessions := count completed l;
     abandoned_sessions := count abandoned l;
     overall_conversion :=
       if decide (entries l "widget_activation" > 0)
       then quotient (count completed l) (entries l "widget_activation")
       else 0%Q;
     stage_entries := Acc.stage_entries (tally l);
     stage_completions := Acc.stage_completions (tally l);
     stage_abandonments := Acc.stage_abandonments (tally l);
     conversion_rates := cr;
     avg_durations := omap mean (Acc.stage_durations (tally l));
     navigation_by_stage := Acc.navigation_by_stage (tally l) |}.

(** ** Abandonment reasons *)

(** The reason categories of the specification. *)
Inductive ReasonCategory :=
| ExcessiveNavigation
| QuickBounce
| LowEngagement
| OtherTimeout.

(** The key under which the code counts each category. *)
Definition reason_label (c : ReasonCategory) : string :=
  match c with
  | ExcessiveNavigation => "Excessive Navigation"
  | QuickBounce => "Quick Bounce"
  | LowEngagement => "Low Engagement"
  | OtherTimeout => "Other/Timeout"
  end.

(** The decision order in the specification's words: each rule applies only
    when no earlier rule does. *)
Inductive classified (s : Session) : ReasonCategory → Prop :=
| classified_navigation :
    get navigation_backs 0 s > 3 →
    classified s ExcessiveNavigation
| classified_bounce :
    ¬ get navigation_backs 0 s > 3 →
    get duration_seconds 0 s < 30 →
    classified s QuickBounce
| classified_engagement :
    ¬ get navigation_backs 0 s > 3 →
    ¬ get duration_seconds 0 s < 30 →
    get total_events 0 s < 5 →
    classified s LowEngagement
| classified_other :
    ¬ get navigation_backs 0 s > 3 →
    ¬ get duration_seconds 0 s < 30 →
    ¬ get total_events 0 s < 5 →
    classified s OtherTimeout.

(** ** The ten-session example *)

(** Five sessions stop at the first stage, one completes a booking, four
    have no known stage. *)
Definition ten_sessions_booking : list Session :=
  replicate 5 widget_only ++ [booked] ++ replicate 4 unknown_stage.

(** Five sessions stop at the first stage; the completed session is one of
    the five without a known stage. *)
Definition ten_sessions_unknown_completed : list Session :=
  replicate 5 widget_only ++ [unknown_completed] ++ replicate 4 unknown_stage.

(** One completed session for each of the last three stages. *)
Definition three_completed : list Session :=
  [ mk_session "hotel-a" "room_selection" true false 120 10 0;
    mk_session "hotel-a" "rate_selection" true false 180 14 1;
    mk_session "hotel-b" "booking_completion" true false 240 20 0 ].

(** ** Sums over the stages *)

(** The values of a per-stage dict added up over [STAGE_ORDER]; a missing key
    counts as 0. *)
Definition sum_over_stages (d : gmap string Z) : Z :=
  foldr (λ stage acc, default 0 (d !! stage) + acc) 0 STAGE_ORDER.

(** ** Tables of counts *)

(** The property id a session is grouped under. *)
Definition property_of (s : Session) : string := get property_id "Unknown" s.

(** A count as a dict entry: no entry for 0. *)
Definition positive (c : Z) : option Z := if decide (c > 0) then Some c else None.

(** The values of a dict of counts added up. *)
Definition dict_total (d : gmap string Z) : Z :=
  map_fold (λ _ v acc, v + acc) 0 d.

(** A field of the per-property entries added up over the properties. *)
Definition property_sum (f : PropertyMetrics.t → Z)
    (pm : gmap string PropertyMetrics.t) : Z :=
  map_fold (λ _ e acc, f e + acc) 0 pm.

(** The entry of property [p] described by counting over the sessions. *)
Definition entry_of (p : string) (l : list Session) : PropertyMetrics.t :=
  {| PropertyMetrics.sessions := count (λ s, property_of s = p) l;
     PropertyMetrics.completions := count (λ s, property_of s = p ∧ completed s) l;
     PropertyMetrics.abandonments := count (λ s, property_of s = p ∧ abandoned s) l;
     PropertyMetrics.stages :=
       by_stage_opt
         (λ x, positive (count (λ s, property_of s = p ∧ stage_of s = x) l)) |}.

(** One step of a loop that counts the sessions satisfying [P] under the key
    [key]. *)
Definition tally_step (P : Session → Prop) `{!∀ s, Decision (P s)}
    (key : Session → string) (d : gmap string Z) (s : Session) : gmap string Z :=
  if decide (P s) then defaultdict_iadd d (key s) 1 else d.

(** Descending order of the numbers shown in two consecutive rows. *)
Definition desc_by {A} (key : A → Z) (x y : A) : Prop := key y ≤ key x.

(** What one session adds to the entry of its property. *)
Definition bump_entry (s : Session) (e : PropertyMetrics.t) : PropertyMetrics.t :=
  {| PropertyMetrics.sessions := PropertyMetrics.sessions e + 1;
     PropertyMetrics.completions :=
       PropertyMetrics.completions e + indicator (completed s);
     PropertyMetrics.abandonments :=
       PropertyMetrics.abandonments e + indicator (abandoned s);
     PropertyMetrics.stages :=
       if decide (known_stage s)
       then defaultdict_iadd (PropertyMetrics.stages e) (stage_of s) 1
       else PropertyMetrics.stages e |}.

(** The row of stage [x], at position [i], read off a metrics dict. *)
Definition expected_row (m : FunnelMetrics) (i : nat) (x : string) : FunnelRow :=
  {| row_name := default "" (STAGE_NAMES !! x);
     row_entries := default 0 (stage_entries m !! x);
     row_completions := default 0 (stage_completions m !! x);
     row_abandonments := default 0 (stage_abandonments m !! x);
     row_fill :=
       (let widget := default 0 (stage_entries m !! "widget_activation") in
        if decide (widget > 0)
        then quotient (default 0 (stage_entries m !! x)) widget
        else 0%Q);
     row_rate :=
       (λ y, displayed_rate (conversion_rates m) (conv_key x y))
         <$> STAGE_ORDER !! S i |}.


(** A per-stage dict has the five stage names among its keys. *)
Definition has_stage_keys {A} (d : gmap string A) : Prop :=
  ∀ x, x ∈ STAGE_ORDER → is_Some (d !! x).

(** * Verification *)

(** ** The error monad and the loop combinator *)


Ltac py_simpl := cbn [mbind mret Py_bind Py_ret].

(** Membership in explicit lists and propositional clean-up. *)
Ltac list_mem :=
  repeat match goal with
         | H : context [_ ∈ _ :: _] |- _ => rewrite elem_of_cons in H
         | H : context [_ ∈ _ ++ _] |- _ => rewrite elem_of_app in H
         | H : context [_ ∈ []] |- _ => rewrite elem_of_nil in H
         end;
  repeat (rewrite elem_of_cons || rewrite elem_of_app || rewrite elem_of_nil);
  intuition congruence.

Lemma py_for_app {A S} (xs ys : list A) (body : S → A → Py S) (s : S) :
  py_for (xs ++ ys) body s = (s' ← py_for xs body s; py_for ys body s').
Proof.
  revert s. induction xs as [|x xs IH]; intros s; simpl; [done|].
  destruct (body s x) as [s1|e]; simpl; [apply IH|done].
Qed.

Lemma py_for_snoc {A S} (xs : list A) (x : A) (body : S → A → Py S) (s s' : S) :
  py_for xs body s = Ok s' →
  py_for (xs ++ [x]) body s = body s' x.
Proof.
  intros Hxs. rewrite py_for_app, Hxs. simpl.
  by destruct (body s' x).
Qed.

Lemma range_S (n : nat) : range (S n) = range n ++ [n].
Proof. unfold range. by rewrite seq_S. Qed.

Lemma py_sum_snoc (l : list Z) (x : Z) : py_sum (l ++ [x]) = py_sum l + x.
Proof. unfold py_sum. by rewrite foldl_app. Qed.

(** ** Stage order *)

Lemma STAGE_ORDER_NoDup : NoDup STAGE_ORDER.
Proof. compute_done. Qed.

Lemma stage_pos_Some (x : string) (k : nat) :
  stage_pos x = Some k ↔ STAGE_ORDER !! k = Some x.
Proof.
  unfold stage_pos. split.
  - destruct (list_find _ _) as [[i y]|] eqn:Hf; [|done].
    intros [= <-]. apply list_find_Some in Hf as (? & -> & _). done.
  - intros Hk. destruct (list_find _ _) as [[i y]|] eqn:Hf.
    + apply list_find_Some in Hf as (Hi & -> & _). simpl. f_equal.
      eapply NoDup_lookup; eauto using STAGE_ORDER_NoDup.
    + apply list_find_None in Hf. rewrite Forall_forall in Hf.
      exfalso. eapply Hf; [|done]. by eapply list_elem_of_lookup_2.
Qed.

Lemma stage_pos_None (x : string) : stage_pos x = None ↔ x ∉ STAGE_ORDER.
Proof.
  split.
  - intros Hn [k Hk]%list_elem_of_lookup_1.
    apply stage_pos_Some in Hk. congruence.
  - intros Hx. destruct (stage_pos x) as [k|] eqn:Hk; [|done].
    apply stage_pos_Some in Hk. exfalso. apply Hx.
    by eapply list_elem_of_lookup_2.
Qed.

Lemma list_index_stage (x : string) :
  list_index STAGE_ORDER x =
    match stage_pos x with Some k => Ok k | None => Raise ValueError end.
Proof.
  unfold list_index, stage_pos.
  by destruct (list_find _ _) as [[i y]|].
Qed.

Lemma lookup_list_to_map_fun {A} (f : string → A) (ks : list string) (x : string) :
  (list_to_map ((λ k, (k, f k)) <$> ks) : gmap string A) !! x =
    if decide (x ∈ ks) then Some (f x) else None.
Proof.
  induction ks as [|k ks IH].
  - rewrite fmap_nil, list_to_map_nil, lookup_empty.
    case_decide; [list_mem|done].
  - rewrite fmap_cons, list_to_map_cons, lookup_insert, IH.
    repeat case_decide; subst; list_mem.
Qed.

Lemma lookup_by_stage {A} (f : string → A) (x : string) :
  by_stage f !! x = if decide (x ∈ STAGE_ORDER) then Some (f x) else None.
Proof. apply lookup_list_to_map_fun. Qed.

Lemma lookup_by_stage_opt {A} (f : string → option A) (x : string) :
  by_stage_opt f !! x = if decide (x ∈ STAGE_ORDER) then f x else None.
Proof.
  unfold by_stage_opt. rewrite lookup_omap, lookup_by_stage.
  by destruct (decide _).
Qed.

Lemma by_stage_ext {A} (f g : string → A) :
  (∀ x, x ∈ STAGE_ORDER → f x = g x) → by_stage f = by_stage g.
Proof.
  intros Hfg. apply map_eq. intros x. rewrite !lookup_by_stage.
  destruct (decide _); [f_equal; auto|done].
Qed.

Lemma by_stage_opt_ext {A} (f g : string → option A) :
  (∀ x, x ∈ STAGE_ORDER → f x = g x) → by_stage_opt f = by_stage_opt g.
Proof.
  intros Hfg. apply map_eq. intros x. rewrite !lookup_by_stage_opt.
  destruct (decide _); auto.
Qed.

Lemma zero_by_stage_eq : zero_by_stage = by_stage (λ _, 0).
Proof. apply map_eq. intros x. rewrite lookup_by_stage.
  unfold zero_by_stage, STAGE_ORDER. simpl.
  repeat (rewrite lookup_insert; destruct (decide (_ = x)) as [<-|?];
          [by rewrite decide_True by list_mem|]).
  rewrite lookup_empty. by rewrite decide_False by list_mem.
Qed.

Lemma by_stage_insert {A} (f : string → A) (x : string) (v : A) :
  x ∈ STAGE_ORDER →
  <[x := v]> (by_stage f) = by_stage (λ y, if decide (y = x) then v else f y).
Proof.
  intros Hx. apply map_eq. intros y. rewrite lookup_insert, !lookup_by_stage.
  destruct (decide (x = y)) as [<-|Hne].
  - rewrite decide_True by done. by rewrite decide_True by done.
  - destruct (decide (y ∈ _)); [|done]. by rewrite decide_False by done.
Qed.

(** ** Counting sessions *)

Section counting.
Context (P : Session → Prop) `{!∀ s, Decision (P s)}.

Lemma count_nil : count P [] = 0.
Proof. reflexivity. Qed.

Lemma count_app (l1 l2 : list Session) :
  count P (l1 ++ l2) = count P l1 + count P l2.
Proof. unfold count. rewrite filter_app, length_app. lia. Qed.

Lemma count_cons (s : Session) (l : list Session) :
  count P (s :: l) = indicator (P s) + count P l.
Proof.
  unfold count, indicator. rewrite filter_cons.
  destruct (decide (P s)); simpl; lia.
Qed.

Lemma count_snoc (l : list Session) (s : Session) :
  count P (l ++ [s]) = count P l + indicator (P s).
Proof. rewrite count_app, count_cons, count_nil. lia. Qed.

Lemma count_insert (l1 l2 : list Session) (s : Session) :
  count P (l1 ++ s :: l2) = count P (l1 ++ l2) + indicator (P s).
Proof. rewrite !count_app, count_cons. lia. Qed.

Lemma count_nonneg (l : list Session) : 0 ≤ count P l.
Proof. unfold count. lia. Qed.

Lemma count_le_length (l : list Session) : count P l ≤ Z.of_nat (length l).
Proof. unfold count. pose proof (length_filter P l). lia. Qed.
End counting.

Lemma count_mono (P Q : Session → Prop) `{!∀ s, Decision (P s)} `{!∀ s, Decision (Q s)}
    (l : list Session) :
  (∀ s, s ∈ l → P s → Q s) → count P l ≤ count Q l.
Proof.
  induction l as [|s l IH]; intros HPQ; [done|].
  rewrite !count_cons. unfold indicator.
  assert (count P l ≤ count Q l) by (apply IH; intros; apply HPQ; list_mem).
  destruct (decide (P s)) as [HP|]; destruct (decide (Q s)) as [|HQ]; try lia.
  exfalso. apply HQ, HPQ; [list_mem|done].
Qed.

Lemma count_ext (P Q : Session → Prop) `{!∀ s, Decision (P s)} `{!∀ s, Decision (Q s)}
    (l : list Session) :
  (∀ s, s ∈ l → P s ↔ Q s) → count P l = count Q l.
Proof.
  intros HPQ. apply Z.le_antisymm; apply count_mono; intros s Hs; by apply HPQ.
Qed.

Lemma indicator_False (P : Prop) `{!Decision P} : ¬ P → indicator P = 0.
Proof. intros HP. unfold indicator. by rewrite decide_False. Qed.

Lemma indicator_True (P : Prop) `{!Decision P} : P → indicator P = 1.
Proof. intros HP. unfold indicator. by rewrite decide_True. Qed.

(** ** What the main loop counts *)

Lemma tally_nil : tally [] = init_counters.
Proof.
  unfold tally, init_counters. rewrite zero_by_stage_eq.
  f_equal; apply map_eq; intros x; rewrite lookup_by_stage_opt, lookup_empty;
    by case_decide.
Qed.

Lemma entered_known (s : Session) (x : string) : x ∈ entered s → known_stage s.
Proof.
  unfold entered, known_stage.
  destruct (stage_pos (stage_of s)) as [k|] eqn:Hk; [|by intros ?%not_elem_of_nil].
  intros _. apply stage_pos_Some in Hk. by eapply list_elem_of_lookup_2.
Qed.

Lemma entered_sublist (s : Session) (x : string) : x ∈ entered s → x ∈ STAGE_ORDER.
Proof.
  unfold entered. destruct (stage_pos _); [|by intros ?%not_elem_of_nil].
  intros Hx. by eapply subseteq_take.
Qed.

Lemma entered_lookup (s : Session) (k i : nat) (x : string) :
  stage_pos (stage_of s) = Some k → STAGE_ORDER !! i = Some x →
  x ∈ entered s ↔ (i ≤ k)%nat.
Proof.
  intros Hk Hi. unfold entered. rewrite Hk. split.
  - intros (j & Hj & Hlt)%elem_of_take.
    assert (i = j) as -> by (eapply NoDup_lookup; eauto using STAGE_ORDER_NoDup).
    lia.
  - intros Hle. apply elem_of_take. exists i. split; [done|lia].
Qed.

(** The inner loop adds one to every stage up to the furthest one. *)
Lemma count_stages_by_stage (c : bool) (n : nat) (f g : string → Z) :
  (n ≤ length STAGE_ORDER)%nat →
  py_for (range n) (count_stage c) (by_stage f, by_stage g) =
    Ok (by_stage (λ x, f x + indicator (x ∈ take n STAGE_ORDER)),
        by_stage (λ x, g x + if c then indicator (x ∈ take n STAGE_ORDER) else 0)).
Proof.
  induction n as [|n IH]; intros Hn.
  - simpl. f_equal. f_equal; apply by_stage_ext; intros x _; unfold indicator.
    + case_decide; [list_mem|lia].
    + destruct c; [case_decide; [list_mem|lia]|lia].
  - rewrite range_S. erewrite py_for_snoc by (apply IH; lia).
    destruct (lookup_lt_is_Some_2 STAGE_ORDER n) as [stage Hstage]; [lia|].
    assert (stage ∈ STAGE_ORDER) as Hin by (by eapply list_elem_of_lookup_2).
    assert (stage ∉ take n STAGE_ORDER) as Hfresh.
    { intros (j & Hj & Hlt)%elem_of_take.
      assert (n = j) by (eapply NoDup_lookup; eauto using STAGE_ORDER_NoDup). lia. }
    assert (∀ x, x ∈ take (S n) STAGE_ORDER ↔ x ∈ take n STAGE_ORDER ∨ x = stage) as Htake.
    { intros x. erewrite take_S_r by done. list_mem. }
    unfold count_stage, list_getitem, dict_iadd, dict_getitem.
    rewrite Hstage. py_simpl.
    rewrite !lookup_by_stage, !decide_True by done. py_simpl.
    rewrite !by_stage_insert by done.
    destruct c; f_equal; f_equal; apply by_stage_ext; intros x _;
      unfold indicator; repeat case_decide; subst; try lia; exfalso;
      rewrite ?Htake in *; intuition congruence.
Qed.

Lemma durations_at_snoc (x : string) (l : list Session) (s : Session) :
  durations_at x (l ++ [s]) =
    durations_at x l ++
      (if decide (stage_of s = x) then [get duration_seconds 0 s] else []).
Proof.
  unfold durations_at. rewrite filter_app, fmap_app. f_equal.
  rewrite filter_cons, filter_nil. by case_decide.
Qed.

Lemma nav_backs_at_snoc (x : string) (l : list Session) (s : Session) :
  nav_backs_at x (l ++ [s]) =
    nav_backs_at x l ++
      (if decide (stage_of s = x ∧ get navigation_backs 0 s > 0)
       then [get navigation_backs 0 s] else []).
Proof.
  unfold nav_backs_at. rewrite filter_app, fmap_app. f_equal.
  rewrite filter_cons, filter_nil. by case_decide.
Qed.

Lemma default_nonempty {A} (l : list A) : default [] (nonempty l) = l.
Proof. by destruct l. Qed.

Lemma nonempty_snoc {A} (l : list A) (x : A) : nonempty (l ++ [x]) = Some (l ++ [x]).
Proof. by destruct l. Qed.

Lemma default_sum_nonempty (l : list Z) : default 0 (py_sum <$> nonempty l) = py_sum l.
Proof. by destruct l. Qed.

Lemma stage_durations_step (l : list Session) (s : Session) :
  known_stage s →
  defaultdict_append (by_stage_opt (λ x, nonempty (durations_at x l)))
                     (stage_of s) (get duration_seconds 0 s) =
    by_stage_opt (λ x, nonempty (durations_at x (l ++ [s]))).
Proof.
  intros Hs. unfold defaultdict_append. apply map_eq. intros x.
  rewrite lookup_insert, !lookup_by_stage_opt, durations_at_snoc.
  rewrite (decide_True _ _ Hs), default_nonempty.
  destruct (decide (stage_of s = x)) as [<-|Hne].
  - by rewrite (decide_True _ _ Hs), nonempty_snoc.
  - by rewrite app_nil_r.
Qed.

Lemma navigation_step (l : list Session) (s : Session) :
  known_stage s →
  (if decide (get navigation_backs 0 s > 0)
   then defaultdict_iadd (by_stage_opt (λ x, py_sum <$> nonempty (nav_backs_at x l)))
                         (stage_of s) (get navigation_backs 0 s)
   else by_stage_opt (λ x, py_sum <$> nonempty (nav_backs_at x l))) =
    by_stage_opt (λ x, py_sum <$> nonempty (nav_backs_at x (l ++ [s]))).
Proof.
  intros Hs. destruct (decide (get navigation_backs 0 s > 0)) as [Hpos|Hneg].
  - unfold defaultdict_iadd. apply map_eq. intros x.
    rewrite lookup_insert, !lookup_by_stage_opt, nav_backs_at_snoc.
    rewrite (decide_True _ _ Hs), default_sum_nonempty.
    destruct (decide (stage_of s = x)) as [<-|Hne].
    + rewrite (decide_True _ _ Hs), decide_True by done.
      by rewrite nonempty_snoc, <- py_sum_snoc.
    + rewrite (decide_False (P := _ ∧ _)) by tauto. by rewrite app_nil_r.
  - apply by_stage_opt_ext. intros x _. rewrite nav_backs_at_snoc.
    rewrite (decide_False (P := _ ∧ _)) by tauto. by rewrite app_nil_r.
Qed.

Lemma unknown_durations (l : list Session) (s : Session) :
  ¬ known_stage s →
  by_stage_opt (λ x, nonempty (durations_at x l)) =
    by_stage_opt (λ x, nonempty (durations_at x (l ++ [s]))).
Proof.
  intros Hs. apply by_stage_opt_ext. intros x Hx. rewrite durations_at_snoc.
  rewrite decide_False; [by rewrite app_nil_r|]. intros <-. by apply Hs.
Qed.

Lemma unknown_navigation (l : list Session) (s : Session) :
  ¬ known_stage s →
  by_stage_opt (λ x, py_sum <$> nonempty (nav_backs_at x l)) =
    by_stage_opt (λ x, py_sum <$> nonempty (nav_backs_at x (l ++ [s]))).
Proof.
  intros Hs. apply by_stage_opt_ext. intros x Hx. rewrite nav_backs_at_snoc.
  rewrite decide_False; [by rewrite app_nil_r|]. intros [<- _]. by apply Hs.
Qed.

Lemma entered_unknown (s : Session) : ¬ known_stage s → entered s = [].
Proof.
  intros Hs. unfold entered.
  by rewrite (proj2 (stage_pos_None (stage_of s)) Hs).
Qed.

Lemma stage_pos_known (s : Session) :
  known_stage s → ∃ k, stage_pos (stage_of s) = Some k ∧ (k < length STAGE_ORDER)%nat.
Proof.
  intros [k Hk]%list_elem_of_lookup_1. exists k. split.
  - by apply stage_pos_Some.
  - by eapply lookup_lt_Some.
Qed.

(** The abandonment branch of the loop body. *)
Lemma abandonment_step (l : list Session) (s : Session) (b : bool) :
  get is_abandoned false s = b →
  (if b then
     if decide (is_Some (by_stage (λ x, count (λ s, abandoned s ∧ stage_of s = x) l)
                           !! stage_of s)) then
       d ← dict_iadd (by_stage (λ x, count (λ s, abandoned s ∧ stage_of s = x) l))
                     (stage_of s) 1;
       Ok (count abandoned l + 1, d)
     else Ok (count abandoned l + 1,
              by_stage (λ x, count (λ s, abandoned s ∧ stage_of s = x) l))
   else Ok (count abandoned l,
            by_stage (λ x, count (λ s, abandoned s ∧ stage_of s = x) l))) =
    Ok (count abandoned (l ++ [s]),
        by_stage (λ x, count (λ s, abandoned s ∧ stage_of s = x) (l ++ [s]))).
Proof.
  intros Hb. rewrite count_snoc. unfold indicator at 1.
  destruct b.
  - rewrite (decide_True (P := abandoned s)) by done.
    rewrite lookup_by_stage. destruct (decide (stage_of s ∈ STAGE_ORDER)) as [Hs|Hs].
    + rewrite decide_True by eauto.
      unfold dict_iadd, dict_getitem. rewrite lookup_by_stage, decide_True by done.
      py_simpl. rewrite by_stage_insert by done. f_equal. f_equal.
      apply by_stage_ext. intros x _. rewrite count_snoc. unfold indicator.
      repeat case_decide; subst; try lia; exfalso; intuition congruence.
    + rewrite decide_False by (by intros [? ?]).
      f_equal. f_equal. apply by_stage_ext. intros x Hx. rewrite count_snoc.
      unfold indicator. case_decide; [|lia]. exfalso. intuition congruence.
  - rewrite (decide_False (P := abandoned s)) by (unfold abandoned; congruence).
    f_equal. f_equal; [lia|]. apply by_stage_ext. intros x _. rewrite count_snoc.
    unfold indicator. case_decide; [|lia]. exfalso. unfold abandoned in *.
    intuition congruence.
Qed.

(** One iteration of the main loop keeps the counters equal to the tally. *)
Lemma process_session_tally (l : list Session) (s : Session) :
  process_session (tally l) s = Ok (tally (l ++ [s])).
Proof.
  unfold process_session. cbn [tally Acc.stage_entries Acc.stage_completions
    Acc.stage_abandonments Acc.stage_durations Acc.navigation_by_stage
    Acc.total_completed Acc.total_abandoned].
  change (get furthest_stage "unknown" s) with (stage_of s).
  rewrite (abandonment_step l s _ eq_refl). py_simpl.
  assert ((if get is_completed false s then count completed l + 1
           else count completed l) = count completed (l ++ [s])) as ->.
  { rewrite count_snoc. unfold indicator, completed.
    destruct (get is_completed false s); case_decide; try done; lia. }
  destruct (decide (stage_of s ∈ STAGE_ORDER)) as [Hs|Hs].
  - destruct (stage_pos_known s Hs) as (k & Hk & Hlt).
    rewrite list_index_stage, Hk. py_simpl.
    rewrite count_stages_by_stage by lia. py_simpl.
    rewrite stage_durations_step, navigation_step by done.
    f_equal. unfold tally. f_equal.
    + apply by_stage_ext. intros x _. rewrite count_snoc. f_equal.
      unfold indicator, entered. rewrite Hk, Nat.add_1_r.
      repeat case_decide; done.
    + apply by_stage_ext. intros x _. rewrite count_snoc. f_equal.
      unfold indicator, entered, completed. rewrite Hk, Nat.add_1_r.
      destruct (get is_completed false s); repeat case_decide; try done;
        exfalso; intuition congruence.
  - f_equal. unfold tally. f_equal.
    + apply by_stage_ext. intros x _. rewrite count_snoc. unfold indicator.
      rewrite entered_unknown by done. case_decide; [list_mem|lia].
    + apply by_stage_ext. intros x _. rewrite count_snoc. unfold indicator.
      rewrite entered_unknown by done. case_decide; [list_mem|lia].
    + by apply unknown_durations.
    + by apply unknown_navigation.
Qed.

Lemma main_loop_from (l1 l2 : list Session) :
  py_for l2 process_session (tally l1) = Ok (tally (l1 ++ l2)).
Proof.
  revert l1. induction l2 as [|s l2 IH]; intros l1.
  - by rewrite app_nil_r.
  - cbn [py_for]. rewrite process_session_tally. py_simpl.
    rewrite IH. by rewrite <- app_assoc.
Qed.

(** The main loop never raises and ends with the tally of its input. *)
Lemma main_loop_tally (l : list Session) :
  py_for l process_session init_counters = Ok (tally l).
Proof. rewrite <- tally_nil. apply (main_loop_from [] l). Qed.

(** ** Ratios *)

Lemma quotient_nonneg (a b : Z) : 0 ≤ a → 0 < b → (0 <= quotient a b)%Q.
Proof.
  intros Ha Hb. unfold quotient. apply Qle_shift_div_l.
  - replace 0%Q with (inject_Z 0) by done. rewrite <- Zlt_Qlt. lia.
  - rewrite Qmult_0_l. replace 0%Q with (inject_Z 0) by done.
    rewrite <- Zle_Qle. lia.
Qed.

Lemma quotient_le_1 (a b : Z) : a ≤ b → 0 < b → (quotient a b <= 1)%Q.
Proof.
  intros Hab Hb. unfold quotient. apply Qle_shift_div_r.
  - replace 0%Q with (inject_Z 0) by done. rewrite <- Zlt_Qlt. lia.
  - rewrite Qmult_1_l. rewrite <- Zle_Qle. lia.
Qed.

Lemma quotient_gt_1 (a b : Z) : 0 < b → b < a → (1 < quotient a b)%Q.
Proof.
  intros Hb Hab. unfold quotient. apply Qlt_shift_div_l.
  - replace 0%Q with (inject_Z 0) by done. rewrite <- Zlt_Qlt. lia.
  - rewrite Qmult_1_l. rewrite <- Zlt_Qlt. lia.
Qed.

Lemma py_truediv_pos (a b : Z) : b > 0 → py_truediv a b = Ok (quotient a b).
Proof. intros Hb. unfold py_truediv. rewrite decide_False by lia. done. Qed.

(** ** Conversion rates *)

Lemma adjacent_at_lt (i : nat) (a b : string) : adjacent_at i a b → (i < 4)%nat.
Proof. intros [_ Hb%lookup_lt_Some]. simpl in Hb. lia. Qed.

Lemma adjacent_at_in (i : nat) (a b : string) :
  adjacent_at i a b → a ∈ STAGE_ORDER ∧ b ∈ STAGE_ORDER.
Proof. intros [Ha Hb]. split; by eapply list_elem_of_lookup_2. Qed.

Lemma conv_key_inj (i j : nat) (a b a' b' : string) :
  adjacent_at i a b → adjacent_at j a' b' →
  conv_key a b = conv_key a' b' → i = j.
Proof.
  intros Hi Hj.
  pose proof (adjacent_at_lt _ _ _ Hi). pose proof (adjacent_at_lt _ _ _ Hj).
  destruct Hi as [Ha Hb], Hj as [Ha' Hb'].
  assert (i = 0 ∨ i = 1 ∨ i = 2 ∨ i = 3)%nat as Hi by lia.
  assert (j = 0 ∨ j = 1 ∨ j = 2 ∨ j = 3)%nat as Hj by lia.
  destruct_or!; subst i j; simpl in Ha, Hb, Ha', Hb'; simplify_eq;
    first [done | by intros [=]].
Qed.

Lemma conversion_loop_upto (n : string → Z) (m : nat) :
  (m ≤ 4)%nat →
  ∃ cr, py_for (range m) (conversion_step (by_stage n)) ∅ = Ok cr ∧ rates_upto m n cr.
Proof.
  induction m as [|m IH]; intros Hm.
  - exists ∅. split; [done|]. intros key r. rewrite lookup_empty. split; [done|].
    intros (i & ? & ? & ? & _). lia.
  - destruct IH as (cr & Hloop & Hcr); [lia|].
    rewrite range_S. erewrite py_for_snoc by done.
    destruct (lookup_lt_is_Some_2 STAGE_ORDER m) as [a Ha]; [simpl; lia|].
    destruct (lookup_lt_is_Some_2 STAGE_ORDER (S m)) as [b Hb]; [simpl; lia|].
    assert (adjacent_at m a b) as Hadj by done.
    destruct (adjacent_at_in _ _ _ Hadj) as [Hain Hbin].
    unfold conversion_step, list_getitem, dict_getitem.
    rewrite Nat.add_1_r, Ha, Hb. py_simpl.
    rewrite !lookup_by_stage, !decide_True by done. py_simpl.
    destruct (decide (n a > 0)) as [Hpos|Hzero].
    + rewrite py_truediv_pos by done. py_simpl.
      eexists. split; [done|]. intros key r. rewrite lookup_insert. split.
      * case_decide as Hkey.
        -- intros [= <-]. exists m, a, b. split_and!; auto with lia.
        -- intros (i & a' & b' & ? & ? & ? & ? & ?)%Hcr.
           exists i, a', b'. split_and!; auto with lia.
      * intros (i & a' & b' & Hi & Hadj' & -> & Hpos' & ->).
        case_decide as Hkey.
        -- assert (m = i) as <- by (eapply conv_key_inj; eauto).
           destruct Hadj' as [Ha' Hb']. by simplify_eq.
        -- apply Hcr. exists i, a', b'. split_and!; auto.
           destruct (decide (i = m)) as [->|]; [|lia].
           destruct Hadj' as [Ha' Hb']. by simplify_eq.
    + exists cr. split; [done|]. intros key r. unfold rates_upto in Hcr.
      rewrite Hcr. split.
      * intros (i & a' & b' & ? & ? & ? & ? & ?).
        exists i, a', b'. split_and!; auto with lia.
      * intros (i & a' & b' & Hi & Hadj' & -> & Hpos' & ->).
        exists i, a', b'. split_and!; auto.
        destruct (decide (i = m)) as [->|]; [|lia].
        destruct Hadj' as [Ha' Hb']. by simplify_eq.
Qed.

Lemma conversion_loop (n : string → Z) :
  ∃ cr, py_for (range (length STAGE_ORDER - 1)) (conversion_step (by_stage n)) ∅ = Ok cr
        ∧ rates_spec n cr.
Proof.
  destruct (conversion_loop_upto n 4) as (cr & Hloop & Hcr); [lia|].
  exists cr. split; [done|]. intros key r. unfold rates_upto in Hcr.
  rewrite Hcr. split.
  - intros (i & a & b & _ & Hadj & ? & ? & ?). exists a, b.
    split_and!; auto. by exists i.
  - intros (a & b & [i Hadj] & ? & ? & ?). exists i, a, b.
    split_and!; auto. by eapply adjacent_at_lt.
Qed.

(** ** Average durations *)

Lemma average_loop (stage_durations : gmap string (list Z)) :
  map_fold average_step (Ok ∅) stage_durations = Ok (omap mean stage_durations).
Proof.
  induction stage_durations as [|stage ds m Hfresh Hfirst IH] using map_first_key_ind.
  - by rewrite map_fold_empty, omap_empty.
  - rewrite map_fold_insert_first_key, IH by done. unfold average_step. py_simpl.
    destruct ds as [|d ds].
    + rewrite omap_insert_None by done. by rewrite delete_id by (by rewrite lookup_omap, Hfresh).
    + rewrite py_truediv_pos by (simpl; lia). py_simpl.
      by erewrite omap_insert_Some by done.
Qed.

(** ** The returned metrics *)

Lemma widget_in_order : "widget_activation" ∈ STAGE_ORDER.
Proof. compute_done. Qed.

(** On a non-empty list nothing raises, and the result is the summary. *)
Lemma calculate_funnel_metrics_summary (l : list Session) :
  l ≠ [] →
  ∃ cr, calculate_funnel_metrics l = Ok (Metrics (summary l cr))
        ∧ rates_spec (entries l) cr.
Proof.
  intros Hl. destruct (conversion_loop (entries l)) as (cr & Hcr & Hspec).
  exists cr. split; [|done].
  unfold calculate_funnel_metrics. destruct l as [|s l]; [done|].
  rewrite main_loop_tally. py_simpl.
  cbn [tally Acc.stage_entries Acc.total_completed Acc.stage_durations
       Acc.stage_completions Acc.stage_abandonments Acc.navigation_by_stage
       Acc.total_abandoned].
  change (by_stage (λ x, count (λ s0, x ∈ entered s0) (s :: l)))
    with (by_stage (entries (s :: l))).
  rewrite Hcr. py_simpl.
  unfold dict_getitem. rewrite lookup_by_stage, decide_True by apply widget_in_order.
  py_simpl. unfold summary.
  destruct (decide (entries (s :: l) "widget_activation" > 0)) as [Hpos|Hzero].
  - py_simpl. rewrite py_truediv_pos by done. py_simpl.
    rewrite average_loop. py_simpl. done.
  - py_simpl. rewrite average_loop. py_simpl. done.
Qed.

(** The function is total: no input makes it raise. *)
Lemma calculate_funnel_metrics_total (l : list Session) :
  ∃ d, calculate_funnel_metrics l = Ok d.
Proof.
  destruct l as [|s l]; [by exists EmptyDict|].
  destruct (calculate_funnel_metrics_summary (s :: l)) as (cr & Heq & _); [done|].
  eauto.
Qed.

(** The empty dict is returned for the empty list only. *)
Lemma calculate_funnel_metrics_empty_iff (l : list Session) :
  calculate_funnel_metrics l = Ok EmptyDict ↔ l = [].
Proof.
  split; [|by intros ->].
  destruct l as [|s l]; [done|]. intros Hr.
  destruct (calculate_funnel_metrics_summary (s :: l)) as (cr & Heq & _); [done|].
  congruence.
Qed.

(** Lookups in the counters of the tally. *)
Lemma stage_entries_lookup (l : list Session) (x : string) :
  x ∈ STAGE_ORDER → Acc.stage_entries (tally l) !! x = Some (entries l x).
Proof. intros Hx. cbn [tally Acc.stage_entries]. by rewrite lookup_by_stage, decide_True. Qed.

Lemma entries_nonneg (l : list Session) (x : string) : 0 ≤ entries l x.
Proof. apply count_nonneg. Qed.

Lemma entered_prefix_closed (s : Session) (a b : string) :
  adjacent a b → b ∈ entered s → a ∈ entered s.
Proof.
  intros [i [Ha Hb]] Hin.
  destruct (stage_pos_known s (entered_known s b Hin)) as (k & Hk & _).
  rewrite (entered_lookup s k (S i) b Hk Hb) in Hin.
  rewrite (entered_lookup s k i a Hk Ha). lia.
Qed.

Lemma entries_adjacent (l : list Session) (a b : string) :
  adjacent a b → entries l b ≤ entries l a.
Proof.
  intros Hab. apply count_mono. intros s _. by apply entered_prefix_closed.
Qed.

Lemma entered_widget (s : Session) : "widget_activation" ∈ entered s ↔ known_stage s.
Proof.
  split; [apply entered_known|].
  intros (k & Hk & _)%stage_pos_known.
  rewrite (entered_lookup s k 0 "widget_activation" Hk) by done. lia.
Qed.

Lemma entries_widget (l : list Session) :
  entries l "widget_activation" = count known_stage l.
Proof. apply count_ext. intros s _. apply entered_widget. Qed.

Lemma adjacent_iff (a b : string) :
  adjacent a b ↔
    (a, b) ∈ [ ("widget_activation", "search_configuration");
               ("search_configuration", "room_selection");
               ("room_selection", "rate_selection");
               ("rate_selection", "booking_completion") ].
Proof.
  split.
  - intros [i Hi]. pose proof (adjacent_at_lt _ _ _ Hi). destruct Hi as [Ha Hb].
    assert (i = 0 ∨ i = 1 ∨ i = 2 ∨ i = 3)%nat as Hcases by lia.
    destruct_or!; subst i; simpl in Ha, Hb; simplify_eq; list_mem.
  - intros Hin. repeat apply elem_of_cons in Hin as [[= -> ->]|Hin];
      [by exists 0%nat|by exists 1%nat|by exists 2%nat|by exists 3%nat|].
    by apply elem_of_nil in Hin.
Qed.

(** The specification's three-session example: the entries are 3, 3, 3, 2, 1. *)
Example three_completed_entries :
  ∃ m, calculate_funnel_metrics three_completed = Ok (Metrics m)
       ∧ stage_entries m !! "widget_activation" = Some 3
       ∧ stage_entries m !! "search_configuration" = Some 3
       ∧ stage_entries m !! "room_selection" = Some 3
       ∧ stage_entries m !! "rate_selection" = Some 2
       ∧ stage_entries m !! "booking_completion" = Some 1.
Proof.
  destruct (calculate_funnel_metrics_summary three_completed) as (cr & Heq & _); [done|].
  eexists. split; [exact Heq|clear Heq]. cbn [summary stage_entries].
  rewrite !stage_entries_lookup by compute_done.
  split_and!; by vm_compute.
Qed.

Lemma rate_lookup (l : list Session) (cr : gmap string Q) (a b : string) :
  rates_spec (entries l) cr → adjacent a b →
  cr !! conv_key a b =
    if decide (entries l a > 0) then Some (quotient (entries l b) (entries l a))
    else None.
Proof.
  intros Hcr [i Hi]. destruct (decide (entries l a > 0)) as [Hpos|Hzero].
  - apply Hcr. exists a, b. split_and!; [by exists i|done..].
  - destruct (cr !! conv_key a b) as [r|] eqn:Hr; [|done].
    apply Hcr in Hr as (a' & b' & [j Hj] & Hkey & Hpos & _).
    assert (i = j) as <- by (eapply conv_key_inj; eauto).
    destruct Hi as [Hia _], Hj as [Hja _]. by simplify_eq.
Qed.

(** * The claims *)

(** ** Empty input *)

(** C1, as stated, fails: on the empty list the function returns the empty
    dict, so there is no metrics object with [total_sessions = 0]. *)
Lemma C1_empty_input_has_no_counters :
  calculate_funnel_metrics [] = Ok EmptyDict
  ∧ ¬ ∃ m, calculate_funnel_metrics [] = Ok (Metrics m) ∧ total_sessions m = 0.
Proof. split; [done|]. intros (m & Hm & _). discriminate Hm. Qed.

(** C1 (amended): on the empty session list [calculate_funnel_metrics] raises
    nothing and returns the empty dict [{}], which carries no key at all and
    which the display code reads as "no data". *)
Theorem C1_empty_input_returns_empty_dict :
  calculate_funnel_metrics [] = Ok EmptyDict
  ∧ metrics_falsy EmptyDict = true
  ∧ (∀ m, calculate_funnel_metrics [] ≠ Ok (Metrics m)).
Proof. split_and!; [done|done|]. intros m Hm. discriminate Hm. Qed.

(** ** Funnel shape *)

(** C2: for every non-empty session list the function returns a metrics dict
    whose [stage_entries] never grows from a stage to the next one in
    [STAGE_ORDER]. *)
Theorem C2_stage_entries_non_increasing (l : list Session) :
  l ≠ [] →
  ∃ m, calculate_funnel_metrics l = Ok (Metrics m)
       ∧ ∀ a b, adjacent a b →
           ∃ na nb, stage_entries m !! a = Some na
                    ∧ stage_entries m !! b = Some nb
                    ∧ nb ≤ na.
Proof.
  intros Hl. destruct (calculate_funnel_metrics_summary l Hl) as (cr & Heq & _).
  eexists. split; [exact Heq|]. intros a b Hab.
  destruct Hab as [i Hi]. destruct (adjacent_at_in _ _ _ Hi) as [Ha Hb].
  exists (entries l a), (entries l b). cbn [summary stage_entries].
  rewrite !stage_entries_lookup by done. split_and!; [done|done|].
  apply entries_adjacent. by exists i.
Qed.

Lemma C2_witness :
  [booked; widget_only] ≠ []
  ∧ ∃ m, calculate_funnel_metrics [booked; widget_only] = Ok (Metrics m)
         ∧ ∀ a b, adjacent a b →
             ∃ na nb, stage_entries m !! a = Some na
                      ∧ stage_entries m !! b = Some nb
                      ∧ nb ≤ na.
Proof.
  split; [discriminate|].
  apply (C2_stage_entries_non_increasing [booked; widget_only]). discriminate.
Defined.

(** ** Conversion rates *)

(** C3, as stated, fails: for one session that stopped at the first stage,
    [search_configuration] has no entries and the rate from it to
    [room_selection] is absent from [conversion_rates], not present with 0. *)
Lemma C3_zero_source_rate_absent :
  ∃ m, calculate_funnel_metrics [widget_only] = Ok (Metrics m)
       ∧ adjacent "search_configuration" "room_selection"
       ∧ stage_entries m !! "search_configuration" = Some 0
       ∧ conversion_rates m !! conv_key "search_configuration" "room_selection" = None.
Proof.
  assert (adjacent "search_configuration" "room_selection") as Hadj by (by exists 1%nat).
  destruct (calculate_funnel_metrics_summary [widget_only]) as (cr & Heq & Hcr); [done|].
  exists (summary [widget_only] cr). split; [exact Heq|clear Heq]. split; [exact Hadj|].
  cbn [summary stage_entries conversion_rates]. split.
  - rewrite stage_entries_lookup by compute_done. f_equal.
  - rewrite (rate_lookup _ _ _ _ Hcr Hadj). apply decide_False. by vm_compute.
Qed.

(** C3 (amended): for every non-empty session list nothing is raised and, for
    each adjacent pair of stages, [conversion_rates] holds the quotient of the
    two entry counts when the source stage has entries, and has no key for the
    pair when the source stage has none; read with [.get(key, 0)], as the
    display does, the rate of such a pair is 0. *)
Theorem C3_conversion_rates_defined_on_positive_sources (l : list Session) :
  l ≠ [] →
  ∃ m, calculate_funnel_metrics l = Ok (Metrics m)
       ∧ ∀ a b, adjacent a b →
           ∃ na nb, stage_entries m !! a = Some na
                    ∧ stage_entries m !! b = Some nb
                    ∧ conversion_rates m !! conv_key a b =
                        (if decide (na > 0) then Some (quotient nb na) else None)
                    ∧ displayed_rate (conversion_rates m) (conv_key a b) =
                        (if decide (na > 0) then quotient nb na else 0%Q).
Proof.
  intros Hl. destruct (calculate_funnel_metrics_summary l Hl) as (cr & Heq & Hcr).
  exists (summary l cr). split; [exact Heq|]. intros a b Hab.
  destruct (Hab) as [i Hi]. destruct (adjacent_at_in _ _ _ Hi) as [Ha Hb].
  exists (entries l a), (entries l b). cbn [summary stage_entries conversion_rates].
  rewrite !stage_entries_lookup by done. unfold displayed_rate.
  rewrite (rate_lookup l cr a b Hcr Hab).
  split_and!; [done|done|done|]. by case_decide.
Qed.

Lemma C3_witness :
  [booked; widget_only] ≠ []
  ∧ ∃ m, calculate_funnel_metrics [booked; widget_only] = Ok (Metrics m)
       ∧ ∀ a b, adjacent a b →
           ∃ na nb, stage_entries m !! a = Some na
                    ∧ stage_entries m !! b = Some nb
                    ∧ conversion_rates m !! conv_key a b =
                        (if decide (na > 0) then Some (quotient nb na) else None)
                    ∧ displayed_rate (conversion_rates m) (conv_key a b) =
                        (if decide (na > 0) then quotient nb na else 0%Q).
Proof.
  split; [discriminate|].
  apply (C3_conversion_rates_defined_on_positive_sources [booked; widget_only]).
  discriminate.
Defined.

(** C4: for every non-empty session list the function returns a metrics dict
    in which every value of [conversion_rates] lies between 0 and 1. *)
Theorem C4_conversion_rates_in_unit_interval (l : list Session) :
  l ≠ [] →
  ∃ m, calculate_funnel_metrics l = Ok (Metrics m)
       ∧ ∀ key r, conversion_rates m !! key = Some r → (0 <= r ∧ r <= 1)%Q.
Proof.
  intros Hl. destruct (calculate_funnel_metrics_summary l Hl) as (cr & Heq & Hcr).
  eexists. split; [exact Heq|]. intros key r Hr. cbn [summary conversion_rates] in Hr.
  apply Hcr in Hr as (a & b & Hab & _ & Hpos & ->).
  pose proof (entries_adjacent l a b Hab). pose proof (entries_nonneg l b).
  split; [apply quotient_nonneg|apply quotient_le_1]; lia.
Qed.

Lemma C4_witness :
  [booked; widget_only] ≠ []
  ∧ ∃ m, calculate_funnel_metrics [booked; widget_only] = Ok (Metrics m)
       ∧ ∀ key r, conversion_rates m !! key = Some r → (0 <= r ∧ r <= 1)%Q.
Proof.
  split; [discriminate|].
  apply (C4_conversion_rates_in_unit_interval [booked; widget_only]). discriminate.
Defined.

(** ** Overall conversion *)

(** C5, as stated, fails: completed sessions without a known stage count in
    the numerator only, and the ratio leaves the unit interval. *)
Lemma C5_overall_conversion_above_one :
  ∃ m, calculate_funnel_metrics [unknown_completed; unknown_completed; widget_only]
         = Ok (Metrics m)
       ∧ completed_sessions m = 2
       ∧ stage_entries m !! "widget_activation" = Some 1
       ∧ overall_conversion m = 2%Q
       ∧ ¬ (overall_conversion m <= 1)%Q.
Proof.
  destruct (calculate_funnel_metrics_summary
              [unknown_completed; unknown_completed; widget_only])
    as (cr & Heq & _); [done|].
  eexists. split; [exact Heq|clear Heq].
  cbn [summary completed_sessions stage_entries overall_conversion].
  rewrite stage_entries_lookup by apply widget_in_order.
  split_and!; by vm_compute.
Qed.

(** C5 (amended): for every non-empty session list [overall_conversion] is
    [completed_sessions / stage_entries["widget_activation"]], or 0 when that
    count is 0, and it is never negative; it is at most 1 when every completed
    session has its furthest stage in [STAGE_ORDER]. *)
Theorem C5_overall_conversion (l : list Session) :
  l ≠ [] →
  ∃ m w, calculate_funnel_metrics l = Ok (Metrics m)
       ∧ stage_entries m !! "widget_activation" = Some w
       ∧ overall_conversion m =
           (if decide (w > 0) then quotient (completed_sessions m) w else 0%Q)
       ∧ (0 <= overall_conversion m)%Q
       ∧ ((∀ s, s ∈ l → completed s → known_stage s) →
          (overall_conversion m <= 1)%Q).
Proof.
  intros Hl. destruct (calculate_funnel_metrics_summary l Hl) as (cr & Heq & _).
  exists (summary l cr), (entries l "widget_activation").
  split; [exact Heq|]. cbn [summary stage_entries overall_conversion completed_sessions].
  rewrite stage_entries_lookup by apply widget_in_order.
  split_and!; [done|done| |].
  - case_decide; [|done]. apply quotient_nonneg; [apply count_nonneg|lia].
  - intros Hknown. case_decide; [|done]. apply quotient_le_1; [|lia].
    rewrite entries_widget. by apply count_mono.
Qed.

Lemma C5_witness :
  [booked; widget_only] ≠ []
  ∧ ∃ m w, calculate_funnel_metrics [booked; widget_only] = Ok (Metrics m)
       ∧ stage_entries m !! "widget_activation" = Some w
       ∧ overall_conversion m =
           (if decide (w > 0) then quotient (completed_sessions m) w else 0%Q)
       ∧ (0 <= overall_conversion m)%Q
       ∧ (overall_conversion m <= 1)%Q.
Proof.
  split; [discriminate|].
  destruct (C5_overall_conversion [booked; widget_only])
    as (m & w & Hm & Hw & Heq & Hge & Hle); [discriminate|].
  exists m, w.
  split; [exact Hm|]. split; [exact Hw|]. split; [exact Heq|]. split; [exact Hge|].
  apply Hle. intros s Hs _. unfold known_stage.
  apply list_elem_of_In in Hs. destruct Hs as [<-|[<-|[]]]; compute_done.
Defined.

(** ** Abandonment reasons *)

Lemma reason_label_inj (c1 c2 : ReasonCategory) :
  reason_label c1 = reason_label c2 → c1 = c2.
Proof. by destruct c1, c2. Qed.

Lemma abandonment_reason_classified (s : Session) :
  ∃ c, abandonment_reason s = reason_label c ∧ classified s c.
Proof.
  unfold abandonment_reason.
  destruct (decide (get navigation_backs 0 s > 3));
    [by exists ExcessiveNavigation; split; [|constructor]|].
  destruct (decide (get duration_seconds 0 s < 30));
    [by exists QuickBounce; split; [|constructor]|].
  destruct (decide (get total_events 0 s < 5));
    [by exists LowEngagement; split; [|constructor]|].
  by exists OtherTimeout; split; [|constructor].
Qed.

Lemma classified_functional (s : Session) (c1 c2 : ReasonCategory) :
  classified s c1 → classified s c2 → c1 = c2.
Proof. destruct 1; destruct 1; done. Qed.

Lemma analyse_abandoned_session (s : Session) :
  get_truthy is_abandoned s = true →
  abandonment_analysis [s] = ({[abandonment_reason s := 1]}, {[stage_of s := 1]}).
Proof.
  intros Ha. unfold abandonment_analysis. cbn [foldl]. unfold analyse_session.
  rewrite Ha. unfold defaultdict_iadd. rewrite !lookup_empty. cbn [default].
  by rewrite !insert_empty.
Qed.

(** C6: the key counted for an abandoned session follows the specification's
    priority order, the first matching rule winning: more than 3 navigation
    backs, else under 30 seconds, else fewer than 5 events, else the default.
    A session with no navigation backs, 10 seconds and 2 events is a quick
    bounce, whatever its other fields. *)
Theorem C6_classification_priority (s : Session) (c : ReasonCategory) :
  (abandonment_reason s = reason_label c ↔ classified s c)
  ∧ (get_truthy is_abandoned s = true →
     abandonment_analysis [s] = ({[abandonment_reason s := 1]}, {[stage_of s := 1]}))
  ∧ (get navigation_backs 0 s = 0 ∧ get duration_seconds 0 s = 10
     ∧ get total_events 0 s = 2 →
     abandonment_reason s = reason_label QuickBounce)
  ∧ abandonment_analysis [quick_bouncer]
    = ({[reason_label QuickBounce := 1]}, {["rate_selection" := 1]}).
Proof.
  split_and!.
  - destruct (abandonment_reason_classified s) as (c' & Hc' & Hcl). split.
    + intros Heq. rewrite Hc' in Heq. by apply reason_label_inj in Heq as <-.
    + intros Hc. by rewrite (classified_functional s c c').
  - apply analyse_abandoned_session.
  - intros (Hn & Hd & He). unfold abandonment_reason. rewrite Hn, Hd.
    rewrite decide_False by lia. by rewrite decide_True by lia.
  - by rewrite analyse_abandoned_session.
Qed.

Lemma C6_witness :
  classified quick_bouncer QuickBounce
  ∧ abandonment_reason quick_bouncer = reason_label QuickBounce
  ∧ abandonment_analysis [quick_bouncer]
    = ({[abandonment_reason quick_bouncer := 1]}, {[stage_of quick_bouncer := 1]}).
Proof.
  destruct (C6_classification_priority quick_bouncer QuickBounce)
    as (Hiff & Hloop & Hexample & _).
  split; [apply Hiff, Hexample; by split_and!|].
  split; [apply Hexample; by split_and!|].
  apply Hloop. reflexivity.
Defined.

(** ** Grouping by property *)

Lemma partition_total_insert_fresh (pm : gmap string PropertyMetrics.t)
    (k : string) (e : PropertyMetrics.t) :
  pm !! k = None →
  partition_total (<[k := e]> pm) = PropertyMetrics.sessions e + partition_total pm.
Proof.
  intros Hk. unfold partition_total.
  rewrite map_fold_insert_L; [done| |done]. intros; lia.
Qed.

Lemma partition_total_delete (pm : gmap string PropertyMetrics.t) (k : string) :
  partition_total pm =
    PropertyMetrics.sessions (default property_default (pm !! k)) + partition_total (delete k pm).
Proof.
  destruct (pm !! k) as [e|] eqn:Hk.
  - unfold partition_total. cbn [default].
    by rewrite (map_fold_delete_L _ _ k e pm) by (intros; lia || done).
  - by rewrite delete_id by done.
Qed.

Lemma partition_total_update (f : PropertyMetrics.t → PropertyMetrics.t) (k : string)
    (pm : gmap string PropertyMetrics.t) :
  partition_total (property_update f k pm) =
    partition_total pm
    + PropertyMetrics.sessions (f (default property_default (pm !! k)))
    - PropertyMetrics.sessions (default property_default (pm !! k)).
Proof.
  unfold property_update. rewrite <- insert_delete_eq.
  rewrite partition_total_insert_fresh by apply lookup_delete_eq.
  rewrite (partition_total_delete pm k). lia.
Qed.

Lemma partition_total_step (pm : gmap string PropertyMetrics.t) (s : Session) :
  partition_total (property_step pm s) = partition_total pm + 1.
Proof.
  unfold property_step.
  repeat (case_match || case_decide);
    rewrite ?partition_total_update; cbn [PropertyMetrics.sessions]; lia.
Qed.

Lemma partition_total_loop (l : list Session) (pm : gmap string PropertyMetrics.t) :
  partition_total (foldl property_step pm l) =
    partition_total pm + Z.of_nat (length l).
Proof.
  revert pm. induction l as [|s l IH]; intros pm; cbn [foldl length].
  - lia.
  - rewrite IH, partition_total_step. lia.
Qed.

(** C9: for every non-empty session list, the per-property session counts
    add up to the [total_sessions] of the ungrouped metrics. *)
Theorem C9_partition_counts_sum_to_total (l : list Session) :
  l ≠ [] →
  ∃ m, calculate_funnel_metrics l = Ok (Metrics m)
       ∧ partition_total (property_comparison l) = total_sessions m.
Proof.
  intros Hl. destruct (calculate_funnel_metrics_summary l Hl) as (cr & Heq & _).
  eexists. split; [exact Heq|]. cbn [summary total_sessions].
  unfold property_comparison. rewrite partition_total_loop.
  unfold partition_total. by rewrite map_fold_empty.
Qed.

Lemma C9_witness :
  [booked; unknown_completed; widget_only] ≠ []
  ∧ ∃ m, calculate_funnel_metrics [booked; unknown_completed; widget_only]
           = Ok (Metrics m)
         ∧ partition_total (property_comparison [booked; unknown_completed; widget_only])
           = total_sessions m.
Proof.
  split; [discriminate|].
  apply (C9_partition_counts_sum_to_total [booked; unknown_completed; widget_only]).
  discriminate.
Defined.

(** ** One more session in the list *)

Lemma durations_at_insert_other (x : string) (l1 l2 : list Session) (s : Session) :
  stage_of s ≠ x → durations_at x (l1 ++ s :: l2) = durations_at x (l1 ++ l2).
Proof.
  intros Hne. unfold durations_at.
  by rewrite !filter_app, filter_cons, decide_False.
Qed.

Lemma nav_backs_at_insert_other (x : string) (l1 l2 : list Session) (s : Session) :
  stage_of s ≠ x → nav_backs_at x (l1 ++ s :: l2) = nav_backs_at x (l1 ++ l2).
Proof.
  intros Hne. unfold nav_backs_at.
  by rewrite !filter_app, filter_cons, decide_False by tauto.
Qed.

(** ** Sessions outside the stage order *)

(** C7: a session whose furthest stage is not one of the five stages adds one
    to [total_sessions] and, according to its flags, to [completed_sessions]
    and [abandoned_sessions]; [stage_entries], [stage_completions],
    [stage_abandonments], [avg_durations] and [navigation_by_stage] are what
    the other sessions alone produce.  The other sessions' counters are those
    of the main loop run on them; when there is at least one other session
    they are also the metrics returned for the list without the session. *)
Theorem C7_unknown_stage_counts_in_totals_only (l1 l2 : list Session) (s : Session) :
  stage_of s ∉ STAGE_ORDER →
  ∃ st avg m,
    py_for (l1 ++ l2) process_session init_counters = Ok st
    ∧ map_fold average_step (Ok ∅) (Acc.stage_durations st) = Ok avg
    ∧ calculate_funnel_metrics (l1 ++ s :: l2) = Ok (Metrics m)
    ∧ total_sessions m = Z.of_nat (length (l1 ++ l2)) + 1
    ∧ completed_sessions m = Acc.total_completed st + indicator (completed s)
    ∧ abandoned_sessions m = Acc.total_abandoned st + indicator (abandoned s)
    ∧ stage_entries m = Acc.stage_entries st
    ∧ stage_completions m = Acc.stage_completions st
    ∧ stage_abandonments m = Acc.stage_abandonments st
    ∧ avg_durations m = avg
    ∧ navigation_by_stage m = Acc.navigation_by_stage st
    ∧ (∀ m0, calculate_funnel_metrics (l1 ++ l2) = Ok (Metrics m0) →
         total_sessions m = total_sessions m0 + 1
         ∧ stage_entries m = stage_entries m0
         ∧ stage_completions m = stage_completions m0
         ∧ stage_abandonments m = stage_abandonments m0
         ∧ avg_durations m = avg_durations m0
         ∧ navigation_by_stage m = navigation_by_stage m0).
Proof.
  intros Hs.
  destruct (calculate_funnel_metrics_summary (l1 ++ s :: l2)) as (cr & Heq & _);
    [by destruct l1|].
  assert (entered s = []) as Hentered by (by apply entered_unknown).
  assert (Acc.stage_entries (tally (l1 ++ s :: l2)) = Acc.stage_entries (tally (l1 ++ l2)))
    as Hentries.
  { apply by_stage_ext. intros x _. rewrite count_insert, indicator_False; [lia|].
    rewrite Hentered. apply not_elem_of_nil. }
  assert (Acc.stage_completions (tally (l1 ++ s :: l2))
          = Acc.stage_completions (tally (l1 ++ l2))) as Hcompletions.
  { apply by_stage_ext. intros x _. rewrite count_insert, indicator_False; [lia|].
    rewrite Hentered. intros [_ []%not_elem_of_nil]. }
  assert (Acc.stage_abandonments (tally (l1 ++ s :: l2))
          = Acc.stage_abandonments (tally (l1 ++ l2))) as Habandonments.
  { apply by_stage_ext. intros x Hx. rewrite count_insert, indicator_False; [lia|].
    intros [_ <-]. by apply Hs. }
  assert (Acc.stage_durations (tally (l1 ++ s :: l2))
          = Acc.stage_durations (tally (l1 ++ l2))) as Hdurations.
  { apply by_stage_opt_ext. intros x Hx.
    rewrite durations_at_insert_other; [done|]. intros <-. by apply Hs. }
  assert (Acc.navigation_by_stage (tally (l1 ++ s :: l2))
          = Acc.navigation_by_stage (tally (l1 ++ l2))) as Hnavigation.
  { apply by_stage_opt_ext. intros x Hx.
    rewrite nav_backs_at_insert_other; [done|]. intros <-. by apply Hs. }
  exists (tally (l1 ++ l2)).
  exists (omap mean (Acc.stage_durations (tally (l1 ++ l2)))).
  exists (summary (l1 ++ s :: l2) cr).
  split; [apply main_loop_tally|]. split; [apply average_loop|].
  split; [exact Heq|].
  cbn [summary total_sessions completed_sessions abandoned_sessions stage_entries
       stage_completions stage_abandonments avg_durations navigation_by_stage].
  split; [rewrite !length_app; cbn [length]; lia|].
  split; [apply count_insert|]. split; [apply count_insert|].
  split; [exact Hentries|]. split; [exact Hcompletions|].
  split; [exact Habandonments|]. split; [by rewrite Hdurations|].
  split; [exact Hnavigation|].
  intros m0 Hm0.
  destruct (calculate_funnel_metrics_summary (l1 ++ l2)) as (cr0 & Heq0 & _).
  { intros Hnil. rewrite Hnil in Hm0. discriminate Hm0. }
  rewrite Heq0 in Hm0. injection Hm0 as <-.
  cbn [summary total_sessions stage_entries stage_completions stage_abandonments
       avg_durations navigation_by_stage].
  split; [rewrite !length_app; cbn [length]; lia|].
  split; [exact Hentries|]. split; [exact Hcompletions|].
  split; [exact Habandonments|]. split; [by rewrite Hdurations|].
  exact Hnavigation.
Qed.

Lemma C7_witness :
(stage_of unknown_completed ∉ STAGE_ORDER)
  ∧ ∃ st avg m,
    py_for ([booked] ++ [widget_only]) process_session init_counters = Ok st
    ∧ map_fold average_step (Ok ∅) (Acc.stage_durations st) = Ok avg
    ∧ calculate_funnel_metrics ([booked] ++ unknown_completed :: [widget_only])
      = Ok (Metrics m)
    ∧ total_sessions m = Z.of_nat (length ([booked] ++ [widget_only])) + 1
    ∧ completed_sessions m = Acc.total_completed st + indicator (completed unknown_completed)
    ∧ abandoned_sessions m = Acc.total_abandoned st + indicator (abandoned unknown_completed)
    ∧ stage_entries m = Acc.stage_entries st
    ∧ stage_completions m = Acc.stage_completions st
    ∧ stage_abandonments m = Acc.stage_abandonments st
    ∧ avg_durations m = avg
    ∧ navigation_by_stage m = Acc.navigation_by_stage st
    ∧ (∀ m0, calculate_funnel_metrics ([booked] ++ [widget_only]) = Ok (Metrics m0) →
         total_sessions m = total_sessions m0 + 1
         ∧ stage_entries m = stage_entries m0
         ∧ stage_completions m = stage_completions m0
         ∧ stage_abandonments m = stage_abandonments m0
         ∧ avg_durations m = avg_durations m0
         ∧ navigation_by_stage m = navigation_by_stage m0).
Proof.
  assert (stage_of unknown_completed ∉ STAGE_ORDER) as Hs by compute_done.
  split; [exact Hs|].
  exact (C7_unknown_stage_counts_in_totals_only [booked] [widget_only]
           unknown_completed Hs).
Defined.

(** ** Sessions both completed and abandoned *)

(** C10: a session with both flags set, whose furthest stage is at position
    [k] of the stage order, adds one to [completed_sessions] and to
    [stage_completions] of every stage up to position [k], and also adds one
    to [abandoned_sessions] and to [stage_abandonments] of its furthest stage
    alone: completion does not suppress abandonment.  For that session alone
    the two totals add up to more than [total_sessions]. *)
Theorem C10_completed_and_abandoned_counted_twice
    (l1 l2 : list Session) (s : Session) (k : nat) :
  completed s → abandoned s → STAGE_ORDER !! k = Some (stage_of s) →
  ∃ st m,
    py_for (l1 ++ l2) process_session init_counters = Ok st
    ∧ calculate_funnel_metrics (l1 ++ s :: l2) = Ok (Metrics m)
    ∧ completed_sessions m = Acc.total_completed st + 1
    ∧ abandoned_sessions m = Acc.total_abandoned st + 1
    ∧ (∀ i x, STAGE_ORDER !! i = Some x →
         ∃ v, Acc.stage_completions st !! x = Some v
              ∧ stage_completions m !! x = Some (v + indicator (i ≤ k)%nat))
    ∧ (∀ x, x ∈ STAGE_ORDER →
         ∃ v, Acc.stage_abandonments st !! x = Some v
              ∧ stage_abandonments m !! x = Some (v + indicator (x = stage_of s)))
    ∧ ∃ m1, calculate_funnel_metrics [s] = Ok (Metrics m1)
            ∧ total_sessions m1 < completed_sessions m1 + abandoned_sessions m1.
Proof.
  intros Hc Ha Hk.
  destruct (calculate_funnel_metrics_summary (l1 ++ s :: l2)) as (cr & Heq & _);
    [by destruct l1|].
  destruct (calculate_funnel_metrics_summary [s]) as (cr1 & Heq1 & _); [done|].
  exists (tally (l1 ++ l2)), (summary (l1 ++ s :: l2) cr).
  split_and!; try done.
  - apply main_loop_tally.
  - cbn [summary completed_sessions tally Acc.total_completed].
    by rewrite count_insert, indicator_True.
  - cbn [summary abandoned_sessions tally Acc.total_abandoned].
    by rewrite count_insert, indicator_True.
  - intros i x Hi. assert (x ∈ STAGE_ORDER) as Hx by (by eapply list_elem_of_lookup_2).
    eexists. cbn [summary stage_completions tally Acc.stage_completions].
    rewrite !lookup_by_stage, !decide_True by done. split; [done|].
    rewrite count_insert. do 2 f_equal. unfold indicator.
    apply stage_pos_Some in Hk.
    pose proof (entered_lookup s k i x Hk Hi).
    repeat case_decide; try done; exfalso; tauto.
  - intros x Hx. eexists.
    cbn [summary stage_abandonments tally Acc.stage_abandonments].
    rewrite !lookup_by_stage, !decide_True by done. split; [done|].
    rewrite count_insert. do 2 f_equal. unfold indicator.
    repeat case_decide; try done; exfalso; intuition congruence.
  - eexists. split; [exact Heq1|].
    cbn [summary total_sessions completed_sessions abandoned_sessions length].
    rewrite !count_cons, !count_nil, !indicator_True by done. lia.
Qed.

Lemma C10_witness :
  completed completed_and_abandoned ∧ abandoned completed_and_abandoned
  ∧ STAGE_ORDER !! 2%nat = Some (stage_of completed_and_abandoned)
  ∧ ∃ st m,
    py_for ([booked] ++ [widget_only]) process_session init_counters = Ok st
    ∧ calculate_funnel_metrics ([booked] ++ completed_and_abandoned :: [widget_only])
      = Ok (Metrics m)
    ∧ completed_sessions m = Acc.total_completed st + 1
    ∧ abandoned_sessions m = Acc.total_abandoned st + 1
    ∧ (∀ i x, STAGE_ORDER !! i = Some x →
         ∃ v, Acc.stage_completions st !! x = Some v
              ∧ stage_completions m !! x = Some (v + indicator (i ≤ 2)%nat))
    ∧ (∀ x, x ∈ STAGE_ORDER →
         ∃ v, Acc.stage_abandonments st !! x = Some v
              ∧ stage_abandonments m !! x
                = Some (v + indicator (x = stage_of completed_and_abandoned)))
    ∧ ∃ m1, calculate_funnel_metrics [completed_and_abandoned] = Ok (Metrics m1)
            ∧ total_sessions m1 < completed_sessions m1 + abandoned_sessions m1.
Proof.
  split_and!; [reflexivity|reflexivity|reflexivity|].
  exact (C10_completed_and_abandoned_counted_twice [booked] [widget_only]
           completed_and_abandoned 2 eq_refl eq_refl eq_refl).
Defined.

(** ** The ten-session example *)

(** C8, as stated, fails: with five sessions that reach the first stage only,
    one session that reaches booking completion and completes, and four
    sessions of unknown stage, the completing session is counted into the
    entries of the first stage too and the overall conversion is 1/6. *)
Lemma C8_ten_sessions_one_sixth :
  ∃ m, calculate_funnel_metrics ten_sessions_booking = Ok (Metrics m)
       ∧ total_sessions m = 10
       ∧ count (λ s, stage_of s = "widget_activation") ten_sessions_booking = 5
       ∧ completed_sessions m = 1
       ∧ stage_entries m !! "widget_activation" = Some 6
       ∧ overall_conversion m = quotient 1 6
       ∧ (overall_conversion m < quotient 1 5)%Q.
Proof.
  destruct (calculate_funnel_metrics_summary ten_sessions_booking)
    as (cr & Heq & _); [done|].
  eexists. split; [exact Heq|clear Heq].
  cbn [summary total_sessions completed_sessions stage_entries overall_conversion].
  rewrite stage_entries_lookup by apply widget_in_order.
  split_and!; by vm_compute.
Qed.

(** C8 (amended): for ten sessions of which exactly five have their furthest
    stage in the stage order and exactly one is completed, the function
    returns [overall_conversion = 1/5 = 0.20]. *)
Theorem C8_ten_sessions_one_fifth (l : list Session) :
  length l = 10%nat →
  count known_stage l = 5 →
  count completed l = 1 →
  ∃ m, calculate_funnel_metrics l = Ok (Metrics m)
       ∧ total_sessions m = 10
       ∧ stage_entries m !! "widget_activation" = Some 5
       ∧ completed_sessions m = 1
       ∧ overall_conversion m = quotient 1 5
       ∧ (overall_conversion m == 0.20)%Q.
Proof.
  intros Hlen Hknown Hcompleted.
  destruct (calculate_funnel_metrics_summary l) as (cr & Heq & _).
  { intros ->. discriminate Hlen. }
  eexists. split; [exact Heq|].
  cbn [summary total_sessions stage_entries completed_sessions overall_conversion].
  rewrite stage_entries_lookup by apply widget_in_order.
  rewrite entries_widget, Hknown, Hcompleted, Hlen.
  split_and!; done.
Qed.

Lemma C8_witness :
  length ten_sessions_unknown_completed = 10%nat
  ∧ count known_stage ten_sessions_unknown_completed = 5
  ∧ count completed ten_sessions_unknown_completed = 1
  ∧ ∃ m, calculate_funnel_metrics ten_sessions_unknown_completed = Ok (Metrics m)
       ∧ total_sessions m = 10
       ∧ stage_entries m !! "widget_activation" = Some 5
       ∧ completed_sessions m = 1
       ∧ overall_conversion m = quotient 1 5
       ∧ (overall_conversion m == 0.20)%Q.
Proof.
  split_and!; [reflexivity|by vm_compute|by vm_compute|].
  apply (C8_ten_sessions_one_fifth ten_sessions_unknown_completed);
    [reflexivity|by vm_compute|by vm_compute].
Defined.

(** * Further properties of [calculate_funnel_metrics] *)

(** ** Helper facts on counts *)

Lemma count_Permutation (P : Session → Prop) `{!∀ s, Decision (P s)} (l l' : list Session) :
  l ≡ₚ l' → count P l = count P l'.
Proof. intros Hp. unfold count. by rewrite Hp. Qed.

Lemma count_split (P Q R : Session → Prop)
    `{!∀ s, Decision (P s)} `{!∀ s, Decision (Q s)} `{!∀ s, Decision (R s)}
    (l : list Session) :
  (∀ s, s ∈ l → indicator (P s) = indicator (Q s) + indicator (R s)) →
  count P l = count Q l + count R l.
Proof.
  induction l as [|s l IH]; intros Hs; [done|].
  rewrite !count_cons.
  rewrite (Hs s) by apply list_elem_of_here.
  rewrite IH; [lia|]. intros s' Hs'. apply Hs. by apply list_elem_of_further.
Qed.

Lemma stage_in_entered (s : Session) : known_stage s → stage_of s ∈ entered s.
Proof.
  intros (k & Hk & _)%stage_pos_known.
  rewrite (entered_lookup s k k (stage_of s) Hk) by (by apply stage_pos_Some). lia.
Qed.

Lemma stage_counters_lookup (l : list Session) (x : string) :
  x ∈ STAGE_ORDER →
  Acc.stage_entries (tally l) !! x = Some (entries l x)
  ∧ Acc.stage_completions (tally l) !! x
    = Some (count (λ s, completed s ∧ x ∈ entered s) l)
  ∧ Acc.stage_abandonments (tally l) !! x
    = Some (count (λ s, abandoned s ∧ stage_of s = x) l).
Proof.
  intros Hx. cbn [tally Acc.stage_entries Acc.stage_completions Acc.stage_abandonments].
  by rewrite !lookup_by_stage, !decide_True by done.
Qed.

(** ** Bounds on the counters *)

(** X1: for every non-empty session list no counter of the result is negative,
    the two totals are at most [total_sessions], and at every stage the
    completions and the abandonments are at most the entries, which are at
    most [total_sessions]. *)
Theorem X1_counters_within_bounds (l : list Session) :
  l ≠ [] →
  ∃ m, calculate_funnel_metrics l = Ok (Metrics m)
       ∧ 0 ≤ completed_sessions m ≤ total_sessions m
       ∧ 0 ≤ abandoned_sessions m ≤ total_sessions m
       ∧ ∀ x, x ∈ STAGE_ORDER →
           ∃ e c a, stage_entries m !! x = Some e
                    ∧ stage_completions m !! x = Some c
                    ∧ stage_abandonments m !! x = Some a
                    ∧ 0 ≤ c ≤ e ∧ 0 ≤ a ≤ e ∧ e ≤ total_sessions m
                    ∧ c ≤ completed_sessions m ∧ a ≤ abandoned_sessions m.
Proof.
  intros Hl. destruct (calculate_funnel_metrics_summary l Hl) as (cr & Heq & _).
  exists (summary l cr). split; [exact Heq|clear Heq].
  cbn [summary total_sessions completed_sessions abandoned_sessions
       stage_entries stage_completions stage_abandonments].
  split; [split; [apply count_nonneg|apply count_le_length]|].
  split; [split; [apply count_nonneg|apply count_le_length]|].
  intros x Hx. destruct (stage_counters_lookup l x Hx) as (He & Hc & Ha).
  eexists _, _, _. split; [exact He|]. split; [exact Hc|]. split; [exact Ha|].
  split_and!.
  - apply count_nonneg.
  - apply count_mono. intros s _ [_ Hin]. exact Hin.
  - apply count_nonneg.
  - apply count_mono. intros s _ [_ <-]. by apply stage_in_entered.
  - apply count_le_length.
  - apply count_mono. by intros s _ [Hc' _].
  - apply count_mono. by intros s _ [Ha' _].
Qed.

Lemma X1_witness :
  [booked; completed_and_abandoned] ≠ []
  ∧ ∃ m, calculate_funnel_metrics [booked; completed_and_abandoned] = Ok (Metrics m)
       ∧ 0 ≤ completed_sessions m ≤ total_sessions m
       ∧ 0 ≤ abandoned_sessions m ≤ total_sessions m
       ∧ ∀ x, x ∈ STAGE_ORDER →
           ∃ e c a, stage_entries m !! x = Some e
                    ∧ stage_completions m !! x = Some c
                    ∧ stage_abandonments m !! x = Some a
                    ∧ 0 ≤ c ≤ e ∧ 0 ≤ a ≤ e ∧ e ≤ total_sessions m
                    ∧ c ≤ completed_sessions m ∧ a ≤ abandoned_sessions m.
Proof.
  split; [discriminate|].
  apply (X1_counters_within_bounds [booked; completed_and_abandoned]). discriminate.
Defined.

(** ** Keys of the per-stage dicts *)

(** X2: in the result for a non-empty session list the three per-stage
    counters carry exactly the five stage names as keys, so reading any stage
    from them cannot fail. *)
Theorem X2_stage_counters_have_the_five_keys (l : list Session) :
  l ≠ [] →
  ∃ m, calculate_funnel_metrics l = Ok (Metrics m)
       ∧ ∀ x, (is_Some (stage_entries m !! x) ↔ x ∈ STAGE_ORDER)
              ∧ (is_Some (stage_completions m !! x) ↔ x ∈ STAGE_ORDER)
              ∧ (is_Some (stage_abandonments m !! x) ↔ x ∈ STAGE_ORDER).
Proof.
  intros Hl. destruct (calculate_funnel_metrics_summary l Hl) as (cr & Heq & _).
  exists (summary l cr). split; [exact Heq|clear Heq]. intros x.
  cbn [summary stage_entries stage_completions stage_abandonments tally
       Acc.stage_entries Acc.stage_completions Acc.stage_abandonments].
  rewrite !lookup_by_stage.
  destruct (decide (x ∈ STAGE_ORDER)) as [Hx|Hx];
    split_and!; split; intros H; try done; by destruct H.
Qed.

Lemma X2_witness :
  [booked; widget_only] ≠ []
  ∧ ∃ m, calculate_funnel_metrics [booked; widget_only] = Ok (Metrics m)
       ∧ ∀ x, (is_Some (stage_entries m !! x) ↔ x ∈ STAGE_ORDER)
              ∧ (is_Some (stage_completions m !! x) ↔ x ∈ STAGE_ORDER)
              ∧ (is_Some (stage_abandonments m !! x) ↔ x ∈ STAGE_ORDER).
Proof.
  split; [discriminate|].
  apply (X2_stage_counters_have_the_five_keys [booked; widget_only]). discriminate.
Defined.

(** ** Average durations *)


Lemma py_sum_ge (ds : list Z) (lo : Z) :
  (∀ d, d ∈ ds → lo ≤ d) → Z.of_nat (length ds) * lo ≤ py_sum ds.
Proof.
  induction ds as [|d ds IH] using rev_ind; intros Hds; [done|].
  rewrite py_sum_snoc, length_app. cbn [length].
  assert (lo ≤ d) by (apply Hds; list_mem).
  assert (Z.of_nat (length ds) * lo ≤ py_sum ds)
    by (apply IH; intros; apply Hds; list_mem).
  lia.
Qed.



Lemma avg_durations_lookup (l : list Session) (x : string) :
  omap mean (Acc.stage_durations (tally l)) !! x =
    if decide (x ∈ STAGE_ORDER) then mean (durations_at x l) else None.
Proof.
  cbn [tally Acc.stage_durations]. rewrite lookup_omap, lookup_by_stage_opt.
  case_decide; [|done]. by destruct (durations_at x l).
Qed.




(** ** Navigation backs *)

Lemma nav_backs_at_elem (x : string) (l : list Session) (n : Z) :
  n ∈ nav_backs_at x l ↔
    ∃ s, s ∈ l ∧ stage_of s = x ∧ get navigation_backs 0 s > 0
         ∧ get navigation_backs 0 s = n.
Proof.
  unfold nav_backs_at. rewrite list_elem_of_fmap. split.
  - intros (s & -> & [[Hs Hpos] Hin]%list_elem_of_filter). by exists s.
  - intros (s & Hin & Hs & Hpos & <-). exists s. split; [done|].
    by apply list_elem_of_filter.
Qed.

Lemma navigation_lookup (l : list Session) (x : string) :
  Acc.navigation_by_stage (tally l) !! x =
    if decide (x ∈ STAGE_ORDER) then py_sum <$> nonempty (nav_backs_at x l) else None.
Proof. cbn [tally Acc.navigation_by_stage]. by rewrite lookup_by_stage_opt. Qed.

(** X4: [navigation_by_stage] has an entry for a stage exactly when some
    session with that furthest stage has a positive number of navigation
    backs; the entry is the sum of those positive numbers, so it is positive
    itself: sessions with zero or negative counts never lower it. *)
Theorem X4_navigation_by_stage (l : list Session) :
  l ≠ [] →
  ∃ m, calculate_funnel_metrics l = Ok (Metrics m)
       ∧ ∀ x,
           (is_Some (navigation_by_stage m !! x)
            ↔ x ∈ STAGE_ORDER
              ∧ ∃ s, s ∈ l ∧ stage_of s = x ∧ get navigation_backs 0 s > 0)
           ∧ ∀ v, navigation_by_stage m !! x = Some v →
               v = py_sum (nav_backs_at x l) ∧ v > 0.
Proof.
  intros Hl. destruct (calculate_funnel_metrics_summary l Hl) as (cr & Heq & _).
  exists (summary l cr). split; [exact Heq|clear Heq]. intros x.
  cbn [summary navigation_by_stage]. rewrite navigation_lookup. split.
  - case_decide as Hx.
    + split.
      * intros Hsome. split; [done|].
        destruct (nav_backs_at x l) as [|n ns] eqn:Hns; [by destruct Hsome|].
        assert (n ∈ nav_backs_at x l) as Hn by (rewrite Hns; list_mem).
        apply nav_backs_at_elem in Hn as (s & ? & ? & ? & _). by exists s.
      * intros (_ & s & Hin & Hs & Hpos).
        assert (get navigation_backs 0 s ∈ nav_backs_at x l) as Hn
          by (apply nav_backs_at_elem; by exists s).
        destruct (nav_backs_at x l); [by apply elem_of_nil in Hn|]. by eexists.
    + split; [by intros []|]. by intros [? _].
  - intros v Hv. case_decide; [|done].
    destruct (nav_backs_at x l) as [|n ns] eqn:Hns; [done|].
    injection Hv as <-. split; [done|].
    assert (Z.of_nat (length (n :: ns)) * 1 ≤ py_sum (n :: ns)) as Hle.
    { apply py_sum_ge. intros d Hd. rewrite <- Hns in Hd.
      apply nav_backs_at_elem in Hd as (s & _ & _ & ? & <-). lia. }
    cbn [length] in Hle. lia.
Qed.

Lemma X4_witness :
  [booked; widget_only] ≠ []
  ∧ ∃ m, calculate_funnel_metrics [booked; widget_only] = Ok (Metrics m)
       ∧ ∀ x,
           (is_Some (navigation_by_stage m !! x)
            ↔ x ∈ STAGE_ORDER
              ∧ ∃ s, s ∈ [booked; widget_only] ∧ stage_of s = x
                     ∧ get navigation_backs 0 s > 0)
           ∧ ∀ v, navigation_by_stage m !! x = Some v →
               v = py_sum (nav_backs_at x [booked; widget_only]) ∧ v > 0.
Proof.
  split; [discriminate|].
  apply (X4_navigation_by_stage [booked; widget_only]). discriminate.
Defined.

(** ** Independence of the order of the sessions *)

Lemma foldl_add (a : Z) (ds : list Z) : foldl Z.add a ds = a + py_sum ds.
Proof.
  unfold py_sum. revert a. induction ds as [|d ds IH]; intros a; cbn [foldl]; [lia|].
  rewrite (IH (a + d)), (IH (0 + d)). lia.
Qed.

Lemma py_sum_cons (d : Z) (ds : list Z) : py_sum (d :: ds) = d + py_sum ds.
Proof. unfold py_sum at 1. cbn [foldl]. rewrite foldl_add. lia. Qed.

Lemma py_sum_app (ds1 ds2 : list Z) : py_sum (ds1 ++ ds2) = py_sum ds1 + py_sum ds2.
Proof.
  induction ds1 as [|d ds1 IH]; simpl; [done|]. rewrite !py_sum_cons, IH. lia.
Qed.

Lemma py_sum_Permutation (ds ds' : list Z) : ds ≡ₚ ds' → py_sum ds = py_sum ds'.
Proof.
  induction 1 as [|d ds ds' _ IH|d1 d2 ds|ds1 ds2 ds3 _ IH1 _ IH2].
  - done.
  - by rewrite !py_sum_cons, IH.
  - rewrite !py_sum_cons. lia.
  - by rewrite IH1.
Qed.

Lemma mean_Permutation (ds ds' : list Z) : ds ≡ₚ ds' → mean ds = mean ds'.
Proof.
  intros Hp. pose proof (py_sum_Permutation _ _ Hp) as Hsum.
  pose proof (Permutation_length Hp) as Hlen.
  destruct ds as [|d ds], ds' as [|d' ds']; try done.
  unfold mean. by rewrite Hsum, Hlen.
Qed.

Lemma sum_nonempty_Permutation (ds ds' : list Z) :
  ds ≡ₚ ds' → py_sum <$> nonempty ds = py_sum <$> nonempty ds'.
Proof.
  intros Hp. pose proof (py_sum_Permutation _ _ Hp) as Hsum.
  pose proof (Permutation_length Hp) as Hlen.
  destruct ds as [|d ds], ds' as [|d' ds']; try done.
  simpl. by rewrite Hsum.
Qed.

Lemma durations_at_Permutation (x : string) (l l' : list Session) :
  l ≡ₚ l' → durations_at x l ≡ₚ durations_at x l'.
Proof. intros Hp. unfold durations_at. by rewrite Hp. Qed.

Lemma nav_backs_at_Permutation (x : string) (l l' : list Session) :
  l ≡ₚ l' → nav_backs_at x l ≡ₚ nav_backs_at x l'.
Proof. intros Hp. unfold nav_backs_at. by rewrite Hp. Qed.

Lemma rates_spec_unique (n : string → Z) (cr cr' : gmap string Q) :
  rates_spec n cr → rates_spec n cr' → cr = cr'.
Proof.
  intros Hcr Hcr'. apply map_eq. intros key.
  destruct (cr !! key) as [r|] eqn:Hr.
  - symmetry. apply Hcr'. by apply Hcr.
  - destruct (cr' !! key) as [r'|] eqn:Hr'; [|done].
    apply Hcr', Hcr in Hr'. congruence.
Qed.

Lemma rates_spec_ext (n n' : string → Z) (cr : gmap string Q) :
  (∀ x, n x = n' x) → rates_spec n cr → rates_spec n' cr.
Proof.
  intros Hn Hcr key r. rewrite (Hcr key r).
  split; intros (a & b & ? & ? & ? & ?); exists a, b.
  - by rewrite <- !Hn.
  - by rewrite !Hn.
Qed.

Lemma summary_Permutation (l l' : list Session) (cr cr' : gmap string Q) :
  l ≡ₚ l' → rates_spec (entries l) cr → rates_spec (entries l') cr' →
  summary l cr = summary l' cr'.
Proof.
  intros Hp Hcr Hcr'.
  assert (∀ x, entries l x = entries l' x) as Hentries
    by (intros x; by apply count_Permutation).
  assert (cr = cr') as <-.
  { apply (rates_spec_unique (entries l')); [|done]. by apply (rates_spec_ext (entries l)). }
  unfold summary. rewrite !Hentries.
  rewrite (Permutation_length Hp).
  rewrite (count_Permutation completed l l' Hp), (count_Permutation abandoned l l' Hp).
  f_equal.
  - apply by_stage_ext. intros x _. by apply count_Permutation.
  - apply by_stage_ext. intros x _. by apply count_Permutation.
  - apply by_stage_ext. intros x _. by apply count_Permutation.
  - apply map_eq. intros x. rewrite !avg_durations_lookup. case_decide; [|done].
    by apply mean_Permutation, durations_at_Permutation.
  - apply map_eq. intros x. rewrite !navigation_lookup. case_decide; [|done].
    by apply sum_nonempty_Permutation, nav_backs_at_Permutation.
Qed.

(** X5: the result does not depend on the order of the sessions: two lists
    that are permutations of each other give the same result. *)
Theorem X5_order_of_sessions_irrelevant (l l' : list Session) :
  l ≡ₚ l' → calculate_funnel_metrics l = calculate_funnel_metrics l'.
Proof.
  intros Hp. destruct l as [|s l].
  - apply Permutation_nil_l in Hp as ->. done.
  - assert (l' ≠ []) as Hl'.
    { intros ->. by apply Permutation_nil_r in Hp. }
    destruct (calculate_funnel_metrics_summary (s :: l)) as (cr & -> & Hcr); [done|].
    destruct (calculate_funnel_metrics_summary l' Hl') as (cr' & -> & Hcr').
    do 2 f_equal. by apply summary_Permutation.
Qed.

Lemma X5_witness :
  [booked; widget_only; quick_bouncer] ≡ₚ [quick_bouncer; booked; widget_only]
  ∧ calculate_funnel_metrics [booked; widget_only; quick_bouncer]
    = calculate_funnel_metrics [quick_bouncer; booked; widget_only].
Proof.
  assert ([booked; widget_only; quick_bouncer] ≡ₚ [quick_bouncer; booked; widget_only])
    as Hp.
  { apply (Permutation_app_comm [booked; widget_only] [quick_bouncer]). }
  split; [exact Hp|].
  exact (X5_order_of_sessions_irrelevant _ _ Hp).
Defined.

(** ** Sessions lost between two stages *)

Lemma entered_step (s : Session) (a b : string) :
  adjacent a b →
  indicator (a ∈ entered s) = indicator (b ∈ entered s) + indicator (stage_of s = a).
Proof.
  intros [i [Ha Hb]]. unfold indicator.
  destruct (decide (known_stage s)) as [Hs|Hs].
  - destruct (stage_pos_known s Hs) as (k & Hk & _).
    pose proof (entered_lookup s k i a Hk Ha) as Hina.
    pose proof (entered_lookup s k (S i) b Hk Hb) as Hinb.
    apply stage_pos_Some in Hk.
    assert (stage_of s = a ↔ k = i) as Heq.
    { split; [intros Hsa|by intros ->; simplify_eq].
      rewrite Hsa in Hk. eapply NoDup_lookup; eauto using STAGE_ORDER_NoDup. }
    assert (a ∈ entered s ↔ b ∈ entered s ∨ stage_of s = a) as Hor
      by (rewrite Hina, Hinb, Heq; lia).
    assert (¬ (b ∈ entered s ∧ stage_of s = a)) as Hand
      by (rewrite Hinb, Heq; lia).
    repeat case_decide; try lia; exfalso; tauto.
  - rewrite (entered_unknown s Hs).
    assert (stage_of s ≠ a).
    { intros Hsa. apply Hs. unfold known_stage. rewrite Hsa.
      by eapply list_elem_of_lookup_2. }
    repeat case_decide; try lia; exfalso; list_mem.
Qed.

Lemma entered_last (s : Session) :
  "booking_completion" ∈ entered s ↔ stage_of s = "booking_completion".
Proof.
  split.
  - intros Hin. destruct (stage_pos_known s (entered_known s _ Hin)) as (k & Hk & Hlt).
    rewrite (entered_lookup s k 4 "booking_completion" Hk) in Hin by done.
    apply stage_pos_Some in Hk. simpl in Hlt.
    assert (k = 4%nat) as -> by lia. simpl in Hk. congruence.
  - intros Hs. rewrite <- Hs. apply stage_in_entered.
    unfold known_stage. rewrite Hs. compute_done.
Qed.

(** X6: the entries of a stage exceed the entries of the next stage by the
    number of sessions whose furthest stage is that stage, and the entries of
    the last stage are the sessions whose furthest stage is the last one. *)
Theorem X6_entries_drop_between_stages (l : list Session) :
  l ≠ [] →
  ∃ m, calculate_funnel_metrics l = Ok (Metrics m)
       ∧ (∀ a b, adjacent a b →
            ∃ ea eb, stage_entries m !! a = Some ea
                     ∧ stage_entries m !! b = Some eb
                     ∧ ea - eb = count (λ s, stage_of s = a) l)
       ∧ stage_entries m !! "booking_completion"
         = Some (count (λ s, stage_of s = "booking_completion") l).
Proof.
  intros Hl. destruct (calculate_funnel_metrics_summary l Hl) as (cr & Heq & _).
  exists (summary l cr). split; [exact Heq|clear Heq].
  cbn [summary stage_entries]. split.
  - intros a b Hab. destruct (Hab) as [i Hi].
    destruct (adjacent_at_in _ _ _ Hi) as [Ha Hb].
    exists (entries l a), (entries l b).
    rewrite !stage_entries_lookup by done. split_and!; [done|done|].
    unfold entries.
    rewrite (count_split (λ s, a ∈ entered s) (λ s, b ∈ entered s)
                         (λ s, stage_of s = a)); [lia|].
    intros s _. by apply entered_step.
  - rewrite stage_entries_lookup by compute_done. f_equal.
    apply count_ext. intros s _. apply entered_last.
Qed.

Lemma X6_witness :
  [booked; widget_only] ≠ []
  ∧ ∃ m, calculate_funnel_metrics [booked; widget_only] = Ok (Metrics m)
       ∧ (∀ a b, adjacent a b →
            ∃ ea eb, stage_entries m !! a = Some ea
                     ∧ stage_entries m !! b = Some eb
                     ∧ ea - eb = count (λ s, stage_of s = a) [booked; widget_only])
       ∧ stage_entries m !! "booking_completion"
         = Some (count (λ s, stage_of s = "booking_completion") [booked; widget_only]).
Proof.
  split; [discriminate|].
  apply (X6_entries_drop_between_stages [booked; widget_only]). discriminate.
Defined.

(** ** Abandonments per stage against the total *)

Lemma sum_over_stages_by_stage (f : string → Z) :
  sum_over_stages (by_stage f) = foldr (λ x acc, f x + acc) 0 STAGE_ORDER.
Proof.
  unfold sum_over_stages.
  assert (∀ ks, ks ⊆ STAGE_ORDER →
            foldr (λ stage acc, default 0 (by_stage f !! stage) + acc) 0 ks
            = foldr (λ x acc, f x + acc) 0 ks) as Hks.
  { induction ks as [|k ks IH]; intros Hsub; [done|]. cbn [foldr].
    rewrite lookup_by_stage, decide_True by (apply Hsub; list_mem).
    rewrite IH; [done|]. intros x Hx. apply Hsub. list_mem. }
  by apply Hks.
Qed.

Lemma indicator_sum_over (A : Prop) `{!Decision A} (y : string) (ks : list string) :
  NoDup ks →
  foldr (λ x acc, indicator (A ∧ y = x) + acc) 0 ks = indicator (A ∧ y ∈ ks).
Proof.
  induction 1 as [|k ks Hk _ IH]; cbn [foldr].
  - unfold indicator. case_decide; [list_mem|done].
  - rewrite IH. unfold indicator.
    repeat case_decide; try lia; exfalso; subst; list_mem.
Qed.

Lemma count_sum_over (P : Session → Prop) `{!∀ s, Decision (P s)}
    (ks : list string) (l : list Session) :
  NoDup ks →
  foldr (λ x acc, count (λ s, P s ∧ stage_of s = x) l + acc) 0 ks
  = count (λ s, P s ∧ stage_of s ∈ ks) l.
Proof.
  intros Hks. induction l as [|s l IH].
  - rewrite count_nil. induction ks as [|k ks IHks]; [done|].
    cbn [foldr]. rewrite count_nil, IHks; [done|]. by apply NoDup_cons in Hks as [_ ?].
  - rewrite count_cons, <- IH, <- (indicator_sum_over (P s) (stage_of s) ks Hks).
    clear. induction ks as [|k ks IHks]; [done|].
    cbn [foldr]. rewrite count_cons, IHks. lia.
Qed.

(** X7: [abandoned_sessions] is the sum of [stage_abandonments] over the five
    stages plus the number of abandoned sessions whose furthest stage is not
    one of the five: such sessions are missing from the per-stage figures. *)
Theorem X7_abandonments_by_stage_sum (l : list Session) :
  l ≠ [] →
  ∃ m, calculate_funnel_metrics l = Ok (Metrics m)
       ∧ abandoned_sessions m
         = sum_over_stages (stage_abandonments m)
           + count (λ s, abandoned s ∧ ¬ known_stage s) l.
Proof.
  intros Hl. destruct (calculate_funnel_metrics_summary l Hl) as (cr & Heq & _).
  exists (summary l cr). split; [exact Heq|clear Heq].
  cbn [summary abandoned_sessions stage_abandonments tally Acc.stage_abandonments].
  rewrite sum_over_stages_by_stage.
  rewrite (count_sum_over abandoned STAGE_ORDER l STAGE_ORDER_NoDup).
  apply count_split. intros s _. unfold indicator, known_stage.
  repeat case_decide; try lia; exfalso; tauto.
Qed.

Lemma X7_witness :
  [quick_bouncer; unknown_stage] ≠ []
  ∧ ∃ m, calculate_funnel_metrics [quick_bouncer; unknown_stage] = Ok (Metrics m)
       ∧ abandoned_sessions m
         = sum_over_stages (stage_abandonments m)
           + count (λ s, abandoned s ∧ ¬ known_stage s) [quick_bouncer; unknown_stage].
Proof.
  split; [discriminate|].
  apply (X7_abandonments_by_stage_sum [quick_bouncer; unknown_stage]). discriminate.
Defined.

(** ** Metrics of a concatenation *)

(** X8: the counters of two batches add up: for non-empty lists [l1] and [l2]
    the totals of [l1 ++ l2] and, key by key (a missing key read as 0), its
    [stage_entries], [stage_completions], [stage_abandonments] and
    [navigation_by_stage] are the sums of those of [l1] and of [l2]. *)
Theorem X8_counters_of_concatenation (l1 l2 : list Session) :
  l1 ≠ [] → l2 ≠ [] →
  ∃ m1 m2 m,
    calculate_funnel_metrics l1 = Ok (Metrics m1)
    ∧ calculate_funnel_metrics l2 = Ok (Metrics m2)
    ∧ calculate_funnel_metrics (l1 ++ l2) = Ok (Metrics m)
    ∧ total_sessions m = total_sessions m1 + total_sessions m2
    ∧ completed_sessions m = completed_sessions m1 + completed_sessions m2
    ∧ abandoned_sessions m = abandoned_sessions m1 + abandoned_sessions m2
    ∧ ∀ x,
        default 0 (stage_entries m !! x)
        = default 0 (stage_entries m1 !! x) + default 0 (stage_entries m2 !! x)
        ∧ default 0 (stage_completions m !! x)
          = default 0 (stage_completions m1 !! x) + default 0 (stage_completions m2 !! x)
        ∧ default 0 (stage_abandonments m !! x)
          = default 0 (stage_abandonments m1 !! x) + default 0 (stage_abandonments m2 !! x)
        ∧ default 0 (navigation_by_stage m !! x)
          = default 0 (navigation_by_stage m1 !! x)
            + default 0 (navigation_by_stage m2 !! x).
Proof.
  intros Hl1 Hl2.
  destruct (calculate_funnel_metrics_summary l1 Hl1) as (cr1 & Heq1 & _).
  destruct (calculate_funnel_metrics_summary l2 Hl2) as (cr2 & Heq2 & _).
  destruct (calculate_funnel_metrics_summary (l1 ++ l2)) as (cr & Heq & _).
  { by destruct l1. }
  exists (summary l1 cr1), (summary l2 cr2), (summary (l1 ++ l2) cr).
  split; [exact Heq1|]. split; [exact Heq2|]. split; [exact Heq|].
  clear Heq1 Heq2 Heq.
  cbn [summary total_sessions completed_sessions abandoned_sessions stage_entries
       stage_completions stage_abandonments navigation_by_stage].
  split; [rewrite length_app; lia|].
  split; [apply count_app|]. split; [apply count_app|].
  intros x. rewrite !navigation_lookup.
  cbn [tally Acc.stage_entries Acc.stage_completions Acc.stage_abandonments].
  rewrite !lookup_by_stage.
  case_decide; [|done]. cbn [default]. rewrite !count_app.
  split_and!; try done.
  rewrite !default_sum_nonempty.
  unfold nav_backs_at. by rewrite filter_app, fmap_app, py_sum_app.
Qed.

Lemma X8_witness :
  [booked; widget_only] ≠ [] ∧ [completed_and_abandoned] ≠ []
  ∧ ∃ m1 m2 m,
    calculate_funnel_metrics [booked; widget_only] = Ok (Metrics m1)
    ∧ calculate_funnel_metrics [completed_and_abandoned] = Ok (Metrics m2)
    ∧ calculate_funnel_metrics ([booked; widget_only] ++ [completed_and_abandoned])
      = Ok (Metrics m)
    ∧ total_sessions m = total_sessions m1 + total_sessions m2
    ∧ completed_sessions m = completed_sessions m1 + completed_sessions m2
    ∧ abandoned_sessions m = abandoned_sessions m1 + abandoned_sessions m2
    ∧ ∀ x,
        default 0 (stage_entries m !! x)
        = default 0 (stage_entries m1 !! x) + default 0 (stage_entries m2 !! x)
        ∧ default 0 (stage_completions m !! x)
          = default 0 (stage_completions m1 !! x) + default 0 (stage_completions m2 !! x)
        ∧ default 0 (stage_abandonments m !! x)
          = default 0 (stage_abandonments m1 !! x) + default 0 (stage_abandonments m2 !! x)
        ∧ default 0 (navigation_by_stage m !! x)
          = default 0 (navigation_by_stage m1 !! x)
            + default 0 (navigation_by_stage m2 !! x).
Proof.
  split; [discriminate|]. split; [discriminate|].
  apply (X8_counters_of_concatenation [booked; widget_only] [completed_and_abandoned]);
    discriminate.
Defined.

(** ** No gap in the conversion rates *)

(** X9: the conversion rates present in the result belong to an initial run
    of the adjacent pairs: when the rate out of a stage is present, the rate
    into that stage is present too and is positive. *)
Theorem X9_conversion_rates_form_a_prefix (l : list Session) :
  l ≠ [] →
  ∃ m, calculate_funnel_metrics l = Ok (Metrics m)
       ∧ ∀ a b c, adjacent a b → adjacent b c →
           is_Some (conversion_rates m !! conv_key b c) →
           ∃ r, conversion_rates m !! conv_key a b = Some r ∧ (0 < r)%Q.
Proof.
  intros Hl. destruct (calculate_funnel_metrics_summary l Hl) as (cr & Heq & Hcr).
  exists (summary l cr). split; [exact Heq|clear Heq].
  cbn [summary conversion_rates]. intros a b c Hab Hbc Hsome.
  rewrite (rate_lookup l cr b c Hcr Hbc) in Hsome.
  rewrite (rate_lookup l cr a b Hcr Hab).
  pose proof (entries_adjacent l a b Hab).
  destruct (decide (entries l b > 0)) as [Hb|Hb]; [|by destruct Hsome].
  rewrite decide_True by lia. eexists. split; [done|].
  unfold quotient. apply Qlt_shift_div_l.
  - replace 0%Q with (inject_Z 0) by done. rewrite <- Zlt_Qlt. lia.
  - rewrite Qmult_0_l. replace 0%Q with (inject_Z 0) by done.
    rewrite <- Zlt_Qlt. lia.
Qed.

Lemma X9_witness :
  [booked; widget_only] ≠ []
  ∧ ∃ m, calculate_funnel_metrics [booked; widget_only] = Ok (Metrics m)
       ∧ ∀ a b c, adjacent a b → adjacent b c →
           is_Some (conversion_rates m !! conv_key b c) →
           ∃ r, conversion_rates m !! conv_key a b = Some r ∧ (0 < r)%Q.
Proof.
  split; [discriminate|].
  apply (X9_conversion_rates_form_a_prefix [booked; widget_only]). discriminate.
Defined.

(** * Properties of the display loops *)

(** ** Stable descending sort *)

Lemma insert_desc_Permutation {A} (key : A → Z) (x : A) (l : list A) :
  insert_desc key x l ≡ₚ x :: l.
Proof.
  induction l as [|y l IH]; cbn [insert_desc]; [done|].
  case_decide; [done|]. rewrite IH. apply Permutation_swap.
Qed.

Lemma py_sorted_desc_Permutation {A} (key : A → Z) (l : list A) :
  py_sorted_desc key l ≡ₚ l.
Proof.
  induction l as [|x l IH]; [done|].
  unfold py_sorted_desc in *. cbn [foldr].
  by rewrite insert_desc_Permutation, IH.
Qed.

Lemma insert_desc_sorted {A} (key : A → Z) (x : A) (l : list A) :
  StronglySorted (desc_by key) l → StronglySorted (desc_by key) (insert_desc key x l).
Proof.
  induction 1 as [|y l Hl IH Hy]; cbn [insert_desc].
  - repeat constructor.
  - case_decide as Hle.
    + constructor; [by constructor|]. constructor; [done|].
      eapply Forall_impl; [exact Hy|]. unfold desc_by. intros z Hz. lia.
    + constructor; [done|]. rewrite insert_desc_Permutation.
      constructor; [unfold desc_by; lia|done].
Qed.

Lemma py_sorted_desc_sorted {A} (key : A → Z) (l : list A) :
  StronglySorted (desc_by key) (py_sorted_desc key l).
Proof.
  induction l as [|x l IH]; [constructor|].
  unfold py_sorted_desc in *. cbn [foldr]. by apply insert_desc_sorted.
Qed.

Lemma insert_desc_stable {A} (key : A → Z) (c : Z) (x : A) (l : list A) :
  filter (λ z, key z = c) (insert_desc key x l) = filter (λ z, key z = c) (x :: l).
Proof.
  induction l as [|y l IH]; cbn [insert_desc]; [done|].
  case_decide as Hle; [done|].
  rewrite (filter_cons _ y), IH, !filter_cons.
  repeat case_decide; try done; lia.
Qed.

(** Rows with the same number keep the order they had before sorting. *)
Lemma py_sorted_desc_stable {A} (key : A → Z) (c : Z) (l : list A) :
  filter (λ z, key z = c) (py_sorted_desc key l) = filter (λ z, key z = c) l.
Proof.
  induction l as [|x l IH]; [done|].
  unfold py_sorted_desc in *. cbn [foldr].
  rewrite insert_desc_stable, !filter_cons, IH. done.
Qed.

Lemma sorted_take_drop {A} (key : A → Z) (l : list A) (n : nat) (x y : A) :
  StronglySorted (desc_by key) l → x ∈ take n l → y ∈ drop n l → key y ≤ key x.
Proof.
  intros Hl Hx Hy. rewrite <- (take_drop n l) in Hl.
  by apply (StronglySorted_app_1_elem_of (desc_by key) _ _ x y Hl).
Qed.

(** ** Items of a dict in key order *)

Lemma elem_of_dict_items {A} (order : list string) (d : gmap string A)
    (k : string) (v : A) :
  (k, v) ∈ dict_items order d ↔ k ∈ order ∧ d !! k = Some v.
Proof.
  unfold dict_items. rewrite list_elem_of_omap. split.
  - intros (k' & Hin & Hk'). destruct (d !! k') as [v'|] eqn:Hv; [|done].
    simpl in Hk'. by simplify_eq.
  - intros [Hin Hv]. exists k. split; [done|]. by rewrite Hv.
Qed.

Lemma dict_items_NoDup {A} (order : list string) (d : gmap string A) :
  NoDup order → NoDup (dict_items order d).
Proof.
  induction 1 as [|k order Hk _ IH]; [constructor|].
  unfold dict_items in *. cbn [omap list_omap].
  destruct (d !! k) as [v|] eqn:Hv; simpl; [|done].
  constructor; [|done].
  intros Hin. apply (elem_of_dict_items order d k v) in Hin as [? _]. done.
Qed.

Lemma dict_items_Permutation {A} (order : list string) (d : gmap string A) :
  NoDup order → (∀ k, k ∈ order ↔ is_Some (d !! k)) →
  dict_items order d ≡ₚ map_to_list d.
Proof.
  intros Hnd Hdom. apply NoDup_Permutation.
  - by apply dict_items_NoDup.
  - apply NoDup_map_to_list.
  - intros [k v]. rewrite elem_of_dict_items, elem_of_map_to_list. split.
    + by intros [_ ?].
    + intros Hv. split; [|done]. apply Hdom. by eexists.
Qed.

Lemma note_key_NoDup (order : list string) (k : string) :
  NoDup order → NoDup (note_key order k).
Proof.
  intros Hnd. unfold note_key. case_decide; [done|].
  apply NoDup_app. split_and!; [done| |apply NoDup_singleton].
  intros x Hx ->%list_elem_of_singleton. done.
Qed.

Lemma elem_of_note_key (order : list string) (k x : string) :
  x ∈ note_key order k ↔ x ∈ order ∨ x = k.
Proof.
  unfold note_key. case_decide.
  - split; [by left|]. by intros [?| ->].
  - rewrite elem_of_app, list_elem_of_singleton. done.
Qed.

(** ** Totals and histograms *)

Lemma map_total_insert {A} (f : A → Z) (m : gmap string A) (k : string) (v : A) :
  map_fold (λ _ e acc, f e + acc) 0 (<[k := v]> m)
  = map_fold (λ _ e acc, f e + acc) 0 m - from_option f 0 (m !! k) + f v.
Proof.
  rewrite <- insert_delete_eq.
  rewrite map_fold_insert_L; [|intros; lia|apply lookup_delete_eq].
  destruct (m !! k) as [e|] eqn:Hk; cbn [from_option].
  - rewrite (map_fold_delete_L _ _ k e m); [lia|intros; lia|done].
  - rewrite delete_id by done. lia.
Qed.

Lemma dict_total_iadd (d : gmap string Z) (k : string) (n : Z) :
  dict_total (defaultdict_iadd d k n) = dict_total d + n.
Proof.
  unfold dict_total, defaultdict_iadd.
  rewrite (map_total_insert (λ v, v)). destruct (d !! k); simpl; lia.
Qed.

Lemma count_pos (P : Session → Prop) `{!∀ s, Decision (P s)} (l : list Session) :
  count P l > 0 ↔ ∃ s, s ∈ l ∧ P s.
Proof.
  induction l as [|s l IH].
  - rewrite count_nil. split; [lia|]. intros (s & Hs & _). by apply elem_of_nil in Hs.
  - rewrite count_cons. pose proof (count_nonneg P l). unfold indicator. split.
    + case_decide.
      * intros _. exists s. split; [list_mem|done].
      * intros Hpos. destruct IH as [IH _]. destruct IH as (s' & Hs' & HP); [lia|].
        exists s'. split; [list_mem|done].
    + intros (s' & [->|Hs']%elem_of_cons & HP).
      * rewrite decide_True by done. lia.
      * destruct IH as [_ IH]. assert (count P l > 0) by (apply IH; eauto).
        case_decide; lia.
Qed.

Lemma tally_lookup (P : Session → Prop) `{!∀ s, Decision (P s)}
    (key : Session → string) (l : list Session) (d : gmap string Z) (k : string) :
  foldl (tally_step P key) d l !! k =
    match d !! k with
    | Some v => Some (v + count (λ s, P s ∧ key s = k) l)
    | None => positive (count (λ s, P s ∧ key s = k) l)
    end.
Proof.
  revert d. induction l as [|s l IH]; intros d.
  - cbn [foldl]. rewrite count_nil. destruct (d !! k); [f_equal; lia|done].
  - cbn [foldl]. rewrite IH, count_cons.
    pose proof (count_nonneg (λ s, P s ∧ key s = k) l) as Hge.
    unfold tally_step, defaultdict_iadd, indicator, positive.
    destruct (decide (P s)) as [HP|HP].
    + rewrite lookup_insert. destruct (decide (key s = k)) as [Hk|Hk].
      * subst k. rewrite decide_True by done.
        destruct (d !! key s); unfold default, from_option, id; [f_equal; lia|].
        rewrite decide_True by lia. done.
      * rewrite (decide_False (P := P s ∧ key s = k)) by tauto.
        by rewrite Z.add_0_l.
    + rewrite (decide_False (P := P s ∧ key s = k)) by tauto.
      by rewrite Z.add_0_l.
Qed.

Lemma tally_total (P : Session → Prop) `{!∀ s, Decision (P s)}
    (key : Session → string) (l : list Session) (d : gmap string Z) :
  dict_total (foldl (tally_step P key) d l) = dict_total d + count P l.
Proof.
  revert d. induction l as [|s l IH]; intros d; cbn [foldl].
  - rewrite count_nil. lia.
  - rewrite IH, count_cons. unfold tally_step, indicator.
    case_decide; [rewrite dict_total_iadd|]; lia.
Qed.

Lemma abandonment_analysis_tallies (l : list Session) :
  abandonment_analysis l =
    (foldl (tally_step abandoned abandonment_reason) ∅ l,
     foldl (tally_step abandoned stage_of) ∅ l).
Proof.
  unfold abandonment_analysis. generalize (∅ : gmap string Z) at 1 3.
  generalize (∅ : gmap string Z).
  induction l as [|s l IH]; intros d1 d2; [done|]. cbn [foldl].
  unfold analyse_session at 2, tally_step at 2 4, abandoned, get_truthy, get.
  destruct (default false (is_abandoned s)) eqn:Ha.
  - rewrite !decide_True by done. apply IH.
  - rewrite !decide_False by done. apply IH.
Qed.

(** ** Abandonment tables *)

Lemma positive_is_Some (c : Z) : is_Some (positive c) ↔ c > 0.
Proof.
  unfold positive. case_decide; split.
  - done.
  - by eexists.
  - by intros [? ?].
  - done.
Qed.

Lemma positive_Some (c v : Z) : positive c = Some v → v = c ∧ c > 0.
Proof. unfold positive. case_decide; [|done]. by intros [= <-]. Qed.

Lemma reasons_lookup (l : list Session) (k : string) :
  (abandonment_analysis l).1 !! k
  = positive (count (λ s, abandoned s ∧ abandonment_reason s = k) l).
Proof.
  rewrite abandonment_analysis_tallies. cbn [fst].
  by rewrite tally_lookup, lookup_empty.
Qed.

Lemma abandonment_stages_lookup (l : list Session) (k : string) :
  (abandonment_analysis l).2 !! k
  = positive (count (λ s, abandoned s ∧ stage_of s = k) l).
Proof.
  rewrite abandonment_analysis_tallies. cbn [snd].
  by rewrite tally_lookup, lookup_empty.
Qed.

(** X10: after the counting loop of [display_abandonment_analysis], each of
    the two tables holds, under a key, the number of abandoned sessions with
    that reason (respectively that furthest stage), and has no entry when
    that number is 0; only the four reason labels occur as reasons. *)
Theorem X10_abandonment_tables_count (l : list Session) (k : string) :
  (abandonment_analysis l).1 !! k
  = positive (count (λ s, abandoned s ∧ abandonment_reason s = k) l)
  ∧ (abandonment_analysis l).2 !! k
    = positive (count (λ s, abandoned s ∧ stage_of s = k) l)
  ∧ (is_Some ((abandonment_analysis l).1 !! k) → ∃ c, k = reason_label c).
Proof.
  split; [apply reasons_lookup|]. split; [apply abandonment_stages_lookup|].
  rewrite reasons_lookup, positive_is_Some.
  intros (s & _ & _ & <-)%count_pos.
  destruct (abandonment_reason_classified s) as (c & Hc & _). by exists c.
Qed.

Lemma X10_witness :
  (abandonment_analysis [quick_bouncer; booked]).1 !! "Quick Bounce"
  = positive (count (λ s, abandoned s ∧ abandonment_reason s = "Quick Bounce")
                    [quick_bouncer; booked])
  ∧ ∃ c, "Quick Bounce" = reason_label c.
Proof.
  destruct (X10_abandonment_tables_count [quick_bouncer; booked] "Quick Bounce")
    as (Hr & _ & Hlabel).
  split; [exact Hr|]. apply Hlabel. rewrite Hr. apply positive_is_Some. by vm_compute.
Defined.

(** X11: the counts of the reasons table add up to the number of abandoned
    sessions, and so do the counts of the stages table; for a non-empty list
    that number is the [abandoned_sessions] of the funnel metrics. *)
Theorem X11_abandonment_tables_total (l : list Session) :
  l ≠ [] →
  ∃ m, calculate_funnel_metrics l = Ok (Metrics m)
       ∧ dict_total (abandonment_analysis l).1 = abandoned_sessions m
       ∧ dict_total (abandonment_analysis l).2 = abandoned_sessions m.
Proof.
  intros Hl. destruct (calculate_funnel_metrics_summary l Hl) as (cr & Heq & _).
  exists (summary l cr). split; [exact Heq|clear Heq].
  cbn [summary abandoned_sessions]. rewrite abandonment_analysis_tallies. cbn [fst snd].
  rewrite !tally_total. unfold dict_total. rewrite map_fold_empty. lia.
Qed.

Lemma X11_witness :
  [quick_bouncer; unknown_stage; completed_and_abandoned] ≠ []
  ∧ ∃ m, calculate_funnel_metrics [quick_bouncer; unknown_stage; completed_and_abandoned]
         = Ok (Metrics m)
       ∧ dict_total (abandonment_analysis
                       [quick_bouncer; unknown_stage; completed_and_abandoned]).1
         = abandoned_sessions m
       ∧ dict_total (abandonment_analysis
                       [quick_bouncer; unknown_stage; completed_and_abandoned]).2
         = abandoned_sessions m.
Proof.
  split; [discriminate|].
  apply (X11_abandonment_tables_total
           [quick_bouncer; unknown_stage; completed_and_abandoned]).
  discriminate.
Defined.

Lemma STAGE_NAMES_lookup (x : string) : x ∈ STAGE_ORDER → is_Some (STAGE_NAMES !! x).
Proof.
  intros Hx. repeat apply elem_of_cons in Hx as [->|Hx]; [by eexists..|].
  by apply elem_of_nil in Hx.
Qed.

Lemma abandonment_stage_rows_from (d : gmap string Z) (ks : list string)
    (rows : list (string * Z)) :
  ks ⊆ STAGE_ORDER →
  py_for ks
    (λ rows stage,
       if decide (is_Some (d !! stage)) then
         let count := default 0 (d !! stage) in
         name ← dict_getitem STAGE_NAMES stage;
         Ok (rows ++ [(name, count)])
       else Ok rows) rows
  = Ok (rows ++ omap (λ x, match STAGE_NAMES !! x, d !! x with
                           | Some name, Some a => Some (name, a)
                           | _, _ => None
                           end) ks).
Proof.
  revert rows. induction ks as [|k ks IH]; intros rows Hsub.
  - cbn [py_for omap list_omap]. by rewrite app_nil_r.
  - cbn [py_for omap list_omap].
    destruct (STAGE_NAMES_lookup k) as [name Hname]; [apply Hsub; list_mem|].
    unfold dict_getitem. rewrite Hname.
    destruct (d !! k) as [a|] eqn:Ha.
    + rewrite decide_True by eauto. py_simpl. cbn [default from_option].
      rewrite IH by (intros x Hx; apply Hsub; list_mem).
      by rewrite <- app_assoc.
    + rewrite decide_False by (by intros []). py_simpl.
      apply IH. intros x Hx. apply Hsub. list_mem.
Qed.

(** X12: the rows printed under "Abandonments by Stage" are, in stage order,
    the stages whose [stage_abandonments] in the funnel metrics is positive,
    each with that number and its display name; building them raises
    nothing. *)
Theorem X12_abandonment_stage_rows (l : list Session) :
  l ≠ [] →
  ∃ m rows,
    calculate_funnel_metrics l = Ok (Metrics m)
    ∧ abandonment_stage_rows (abandonment_analysis l).2 = Ok rows
    ∧ rows = omap (λ x, match STAGE_NAMES !! x, stage_abandonments m !! x with
                        | Some name, Some a =>
                            if decide (a > 0) then Some (name, a) else None
                        | _, _ => None
                        end) STAGE_ORDER.
Proof.
  intros Hl. destruct (calculate_funnel_metrics_summary l Hl) as (cr & Heq & _).
  exists (summary l cr). eexists. split; [exact Heq|clear Heq].
  unfold abandonment_stage_rows.
  rewrite abandonment_stage_rows_from by done. split; [done|].
  cbn [app summary stage_abandonments].
  assert (∀ ks, ks ⊆ STAGE_ORDER →
    omap (λ x, match STAGE_NAMES !! x, (abandonment_analysis l).2 !! x with
               | Some name, Some a => Some (name, a)
               | _, _ => None
               end) ks
    =@{list (string * Z)}
      omap (λ x, match STAGE_NAMES !! x, Acc.stage_abandonments (tally l) !! x with
                 | Some name, Some a =>
                     if decide (a > 0) then Some (name, a) else None
                 | _, _ => None
                 end) ks) as Hks; [|by apply Hks].
  induction ks as [|k ks IH]; intros Hsub; [done|]. cbn [omap list_omap].
  rewrite IH by (intros x Hx; apply Hsub; list_mem). f_equal.
  destruct (stage_counters_lookup l k) as (_ & _ & ->); [apply Hsub; list_mem|].
  rewrite abandonment_stages_lookup. unfold positive.
  destruct (STAGE_NAMES !! k); [|done]. by case_decide.
Qed.

Lemma X12_witness :
  [quick_bouncer; unknown_stage] ≠ []
  ∧ ∃ m rows,
    calculate_funnel_metrics [quick_bouncer; unknown_stage] = Ok (Metrics m)
    ∧ abandonment_stage_rows (abandonment_analysis [quick_bouncer; unknown_stage]).2
      = Ok rows
    ∧ rows = omap (λ x, match STAGE_NAMES !! x, stage_abandonments m !! x with
                        | Some name, Some a =>
                            if decide (a > 0) then Some (name, a) else None
                        | _, _ => None
                        end) STAGE_ORDER.
Proof.
  split; [discriminate|].
  apply (X12_abandonment_stage_rows [quick_bouncer; unknown_stage]). discriminate.
Defined.

Lemma reasons_order_snoc (l : list Session) (s : Session) :
  reasons_order (l ++ [s]) =
    if decide (abandoned s) then note_key (reasons_order l) (abandonment_reason s)
    else reasons_order l.
Proof.
  unfold reasons_order. rewrite foldl_app. cbn [foldl].
  unfold abandoned, get_truthy, get.
  destruct (default false (is_abandoned s)); by case_decide.
Qed.

Lemma reasons_order_spec (l : list Session) :
  NoDup (reasons_order l)
  ∧ ∀ k, k ∈ reasons_order l ↔ ∃ s, s ∈ l ∧ abandoned s ∧ abandonment_reason s = k.
Proof.
  induction l as [|s l [IHnd IHin]] using rev_ind.
  - split; [constructor|]. intros k. split.
    + by intros ?%elem_of_nil.
    + by intros (s & ?%elem_of_nil & _).
  - rewrite reasons_order_snoc. case_decide as Ha.
    + split; [by apply note_key_NoDup|]. intros k.
      rewrite elem_of_note_key, IHin. split.
      * intros [(s' & Hin & ? & ?)| ->].
        -- exists s'. split; [list_mem|done].
        -- exists s. split; [list_mem|done].
      * intros (s' & [Hin| ->%list_elem_of_singleton]%elem_of_app & Ha' & Hk).
        -- left. by exists s'.
        -- by right.
    + split; [done|]. intros k. rewrite IHin. split.
      * intros (s' & Hin & ? & ?). exists s'. split; [list_mem|done].
      * intros (s' & [Hin| ->%list_elem_of_singleton]%elem_of_app & Ha' & Hk);
          [by exists s'|done].
Qed.

(** X13: the rows printed under "Abandonment Reasons" list every entry of the
    reasons table exactly once, in non-increasing order of their counts;
    reasons with the same count keep the order in which they first occurred,
    and every count shown is positive. *)
Theorem X13_sorted_reasons (l : list Session) :
  StronglySorted (desc_by snd) (sorted_reasons l)
  ∧ sorted_reasons l ≡ₚ map_to_list (abandonment_analysis l).1
  ∧ (∀ c, filter (λ row, row.2 = c) (sorted_reasons l)
          = filter (λ row, row.2 = c)
                   (dict_items (reasons_order l) (abandonment_analysis l).1))
  ∧ ∀ k c, (k, c) ∈ sorted_reasons l →
      c = count (λ s, abandoned s ∧ abandonment_reason s = k) l ∧ c > 0.
Proof.
  destruct (reasons_order_spec l) as [Hnd Hin].
  assert (sorted_reasons l ≡ₚ map_to_list (abandonment_analysis l).1) as Hperm.
  { unfold sorted_reasons. rewrite py_sorted_desc_Permutation.
    apply dict_items_Permutation; [done|]. intros k.
    rewrite Hin, reasons_lookup, positive_is_Some, count_pos. done. }
  split; [apply py_sorted_desc_sorted|]. split; [done|].
  split; [intros c; apply (py_sorted_desc_stable snd)|].
  intros k c Hkc. rewrite Hperm in Hkc.
  apply elem_of_map_to_list in Hkc. rewrite reasons_lookup in Hkc.
  apply positive_Some in Hkc as [-> Hpos]. done.
Qed.

(** ** Per-property entries *)

Lemma property_update_lookup (f : PropertyMetrics.t → PropertyMetrics.t)
    (k p : string) (pm : gmap string PropertyMetrics.t) :
  property_update f k pm !! p =
    if decide (k = p) then Some (f (default property_default (pm !! k)))
    else pm !! p.
Proof. unfold property_update. by rewrite lookup_insert. Qed.

Lemma property_update_update (f g : PropertyMetrics.t → PropertyMetrics.t)
    (k : string) (pm : gmap string PropertyMetrics.t) :
  property_update f k (property_update g k pm) = property_update (f ∘ g) k pm.
Proof.
  unfold property_update. by rewrite lookup_insert_eq, insert_insert_eq.
Qed.

Lemma property_update_ext (f g : PropertyMetrics.t → PropertyMetrics.t)
    (k : string) (pm : gmap string PropertyMetrics.t) :
  f (default property_default (pm !! k)) = g (default property_default (pm !! k)) →
  property_update f k pm = property_update g k pm.
Proof. unfold property_update. by intros ->. Qed.

(** The up to four in-place updates of one iteration amount to one. *)
Lemma property_step_bump (pm : gmap string PropertyMetrics.t) (s : Session) :
  property_step pm s = property_update (bump_entry s) (property_of s) pm.
Proof.
  unfold property_step. change (get property_id "Unknown" s) with (property_of s).
  change (get furthest_stage "unknown" s) with (stage_of s).
  assert (get_truthy is_completed s = true ↔ completed s) as Hc by done.
  assert (get_truthy is_abandoned s = true ↔ abandoned s) as Ha by done.
  destruct (get_truthy is_completed s) eqn:Ec;
    destruct (get_truthy is_abandoned s) eqn:Ea;
    destruct (decide (stage_of s ∈ STAGE_ORDER)) as [Hs|Hs];
    rewrite ?property_update_update; apply property_update_ext;
    unfold bump_entry, indicator, known_stage; cbn;
    repeat case_decide; try (exfalso; intuition congruence);
    f_equal; lia.
Qed.

Lemma entry_of_none (p : string) (l : list Session) :
  ¬ count (λ s, property_of s = p) l > 0 → entry_of p l = property_default.
Proof.
  intros Hzero. pose proof (count_nonneg (λ s, property_of s = p) l).
  assert (∀ (Q : Session → Prop) `{!∀ s, Decision (Q s)},
            count (λ s, property_of s = p ∧ Q s) l = 0) as Hq.
  { intros Q ?. pose proof (count_nonneg (λ s, property_of s = p ∧ Q s) l).
    pose proof (count_mono (λ s, property_of s = p ∧ Q s) (λ s, property_of s = p) l).
    assert (count (λ s, property_of s = p ∧ Q s) l ≤ count (λ s, property_of s = p) l)
      by (apply count_mono; tauto).
    lia. }
  unfold entry_of, property_default. f_equal; try (apply Hq || lia).
  apply map_eq. intros x. rewrite lookup_by_stage_opt, lookup_empty.
  case_decide; [|done]. rewrite Hq. done.
Qed.

Lemma entry_of_snoc_other (p : string) (l : list Session) (s : Session) :
  property_of s ≠ p → entry_of p (l ++ [s]) = entry_of p l.
Proof.
  intros Hne. unfold entry_of.
  rewrite !count_snoc, !indicator_False by tauto. rewrite !Z.add_0_r.
  f_equal. apply by_stage_opt_ext. intros x _.
  by rewrite count_snoc, indicator_False, Z.add_0_r by tauto.
Qed.

Lemma entry_of_snoc_same (l : list Session) (s : Session) :
  entry_of (property_of s) (l ++ [s]) = bump_entry s (entry_of (property_of s) l).
Proof.
  unfold entry_of, bump_entry. cbn [PropertyMetrics.sessions PropertyMetrics.completions
    PropertyMetrics.abandonments PropertyMetrics.stages].
  rewrite !count_snoc. f_equal.
  - by rewrite indicator_True.
  - f_equal. unfold indicator. repeat case_decide; try done; exfalso; tauto.
  - f_equal. unfold indicator. repeat case_decide; try done; exfalso; tauto.
  - apply map_eq. intros x. rewrite lookup_by_stage_opt.
    pose proof (count_nonneg (λ s0, property_of s0 = property_of s ∧ stage_of s0 = x) l).
    destruct (decide (known_stage s)) as [Hs|Hs].
    + unfold defaultdict_iadd. rewrite lookup_insert, !lookup_by_stage_opt.
      rewrite (decide_True (P := stage_of s ∈ STAGE_ORDER)) by done.
      rewrite count_snoc. unfold indicator, positive.
      destruct (decide (stage_of s = x)) as [<-|Hne].
      * rewrite (decide_True (P := stage_of s ∈ STAGE_ORDER)) by done.
        rewrite (decide_True (P := _ ∧ _)) by done.
        rewrite (decide_True (P := _ + 1 > 0)) by lia.
        case_decide; cbn [default from_option id]; f_equal; lia.
      * rewrite (decide_False (P := _ ∧ _)) by tauto. by rewrite Z.add_0_r.
    + rewrite lookup_by_stage_opt. case_decide as Hx; [|done].
      rewrite count_snoc, indicator_False, Z.add_0_r; [done|].
      intros [_ Heq]. apply Hs. unfold known_stage. by rewrite Heq.
Qed.

Lemma property_comparison_snoc (l : list Session) (s : Session) :
  property_comparison (l ++ [s]) = property_step (property_comparison l) s.
Proof. unfold property_comparison. by rewrite foldl_app. Qed.

Lemma property_comparison_lookup (l : list Session) (p : string) :
  property_comparison l !! p =
    if decide (count (λ s, property_of s = p) l > 0) then Some (entry_of p l)
    else None.
Proof.
  induction l as [|s l IH] using rev_ind.
  - rewrite count_nil. by rewrite decide_False by lia.
  - rewrite property_comparison_snoc, property_step_bump, property_update_lookup.
    pose proof (count_nonneg (λ s0, property_of s0 = p) l).
    rewrite count_snoc.
    destruct (decide (property_of s = p)) as [<-|Hne].
    + rewrite indicator_True by done.
      rewrite decide_True by lia. f_equal. rewrite entry_of_snoc_same. f_equal.
      rewrite IH. case_decide; [done|]. symmetry. by apply entry_of_none.
    + rewrite indicator_False by done.
      rewrite IH, Z.add_0_r. case_decide; [|done].
      by rewrite entry_of_snoc_other.
Qed.

Lemma entry_of_stage_total (p : string) (l : list Session) :
  dict_total (PropertyMetrics.stages (entry_of p l))
  = count (λ s, property_of s = p ∧ known_stage s) l.
Proof.
  induction l as [|s l IH] using rev_ind.
  - rewrite count_nil. rewrite entry_of_none by (rewrite count_nil; lia).
    unfold dict_total. cbn. by rewrite map_fold_empty.
  - rewrite count_snoc. destruct (decide (property_of s = p)) as [<-|Hne].
    + rewrite entry_of_snoc_same. cbn [bump_entry PropertyMetrics.stages].
      unfold indicator. destruct (decide (known_stage s)).
      * rewrite dict_total_iadd, IH. by rewrite decide_True.
      * rewrite IH. rewrite decide_False by tauto. lia.
    + rewrite entry_of_snoc_other, IH, indicator_False by tauto. lia.
Qed.

(** X14: after the grouping loop of [display_property_comparison] a property
    id has an entry exactly when some session carries it (a session without
    a property id is grouped under "Unknown"); the entry counts that
    property's sessions, its completed and its abandoned sessions, and per
    stage the sessions whose furthest stage is that stage, with no key for a
    stage nobody stopped at or for a stage name outside the stage order. *)
Theorem X14_property_entries_count (l : list Session) (p : string) :
  (property_comparison l !! p = None ↔ ∀ s, s ∈ l → property_of s ≠ p)
  ∧ ∀ e, property_comparison l !! p = Some e →
      PropertyMetrics.sessions e = count (λ s, property_of s = p) l
      ∧ PropertyMetrics.completions e
        = count (λ s, property_of s = p ∧ completed s) l
      ∧ PropertyMetrics.abandonments e
        = count (λ s, property_of s = p ∧ abandoned s) l
      ∧ ∀ x, PropertyMetrics.stages e !! x
             = if decide (x ∈ STAGE_ORDER)
               then positive (count (λ s, property_of s = p ∧ stage_of s = x) l)
               else None.
Proof.
  rewrite property_comparison_lookup. split.
  - case_decide as Hpos.
    + split; [done|]. intros Hnone. exfalso.
      apply count_pos in Hpos as (s & Hs & Hp). by apply (Hnone s).
    + split; [|done]. intros _ s Hs Hp. apply Hpos, count_pos. by exists s.
  - intros e He. case_decide; [|done]. injection He as <-.
    cbn [entry_of PropertyMetrics.sessions PropertyMetrics.completions
         PropertyMetrics.abandonments PropertyMetrics.stages].
    split_and!; try done. intros x. by rewrite lookup_by_stage_opt.
Qed.

(** X15: every entry of the table stands for at least one session; its
    completions and abandonments are between 0 and its sessions, its stage
    counts add up to its sessions with a known stage, and the conversion rate
    computed for its row divides by a positive number, so it never falls back
    to 0 for lack of sessions, never raises, and lies in [0, 1]. *)
Theorem X15_property_entry_bounds (l : list Session) (p : string)
    (e : PropertyMetrics.t) :
  property_comparison l !! p = Some e →
  1 ≤ PropertyMetrics.sessions e
  ∧ 0 ≤ PropertyMetrics.completions e ≤ PropertyMetrics.sessions e
  ∧ 0 ≤ PropertyMetrics.abandonments e ≤ PropertyMetrics.sessions e
  ∧ dict_total (PropertyMetrics.stages e)
    = count (λ s, property_of s = p ∧ known_stage s) l
  ∧ dict_total (PropertyMetrics.stages e) ≤ PropertyMetrics.sessions e
  ∧ ∃ r, conv_rate e = Ok r
         ∧ r = quotient (PropertyMetrics.completions e) (PropertyMetrics.sessions e)
         ∧ (0 <= r ∧ r <= 1)%Q.
Proof.
  rewrite property_comparison_lookup. case_decide as Hpos; [|done].
  intros [= <-]. unfold conv_rate.
  rewrite entry_of_stage_total.
  cbn [entry_of PropertyMetrics.sessions PropertyMetrics.completions
       PropertyMetrics.abandonments].
  assert (count (λ s, property_of s = p ∧ completed s) l
          ≤ count (λ s, property_of s = p) l) by (apply count_mono; tauto).
  assert (count (λ s, property_of s = p ∧ abandoned s) l
          ≤ count (λ s, property_of s = p) l) by (apply count_mono; tauto).
  assert (count (λ s, property_of s = p ∧ known_stage s) l
          ≤ count (λ s, property_of s = p) l) by (apply count_mono; tauto).
  pose proof (count_nonneg (λ s, property_of s = p ∧ completed s) l).
  pose proof (count_nonneg (λ s, property_of s = p ∧ abandoned s) l).
  split; [lia|]. split; [lia|]. split; [lia|]. split; [done|]. split; [lia|].
  rewrite decide_True by done. rewrite py_truediv_pos by done.
  eexists. split; [done|]. split; [done|].
  split; [apply quotient_nonneg|apply quotient_le_1]; lia.
Qed.

Lemma X15_witness :
  ∃ e, property_comparison [booked; widget_only; unknown_stage] !! "hotel-a" = Some e
       ∧ 1 ≤ PropertyMetrics.sessions e
       ∧ 0 ≤ PropertyMetrics.completions e ≤ PropertyMetrics.sessions e
       ∧ ∃ r, conv_rate e = Ok r ∧ (0 <= r ∧ r <= 1)%Q.
Proof.
  assert (∃ e, property_comparison [booked; widget_only; unknown_stage] !! "hotel-a"
               = Some e) as [e He].
  { rewrite property_comparison_lookup, decide_True by (by vm_compute). by eexists. }
  exists e. split; [exact He|].
  destruct (X15_property_entry_bounds _ _ _ He)
    as (Hs & Hc & _ & _ & _ & r & Hr & _ & Hbounds).
  split; [exact Hs|]. split; [exact Hc|]. exists r. by split.
Defined.

(** ** Sums over the properties *)

Lemma property_sum_update (f : PropertyMetrics.t → Z)
    (g : PropertyMetrics.t → PropertyMetrics.t) (k : string)
    (pm : gmap string PropertyMetrics.t) :
  f property_default = 0 →
  property_sum f (property_update g k pm) =
    property_sum f pm
    + f (g (default property_default (pm !! k)))
    - f (default property_default (pm !! k)).
Proof.
  intros Hf. unfold property_sum, property_update. rewrite (map_total_insert f).
  destruct (pm !! k); cbn [default from_option id]; lia.
Qed.

Lemma property_sum_loop (f : PropertyMetrics.t → Z) (P : Session → Prop)
    `{!∀ s, Decision (P s)} (l : list Session) (pm : gmap string PropertyMetrics.t) :
  f property_default = 0 →
  (∀ s e, f (bump_entry s e) = f e + indicator (P s)) →
  property_sum f (foldl property_step pm l) = property_sum f pm + count P l.
Proof.
  intros Hf Hbump. revert pm. induction l as [|s l IH]; intros pm; cbn [foldl].
  - rewrite count_nil. lia.
  - rewrite IH, property_step_bump, property_sum_update, Hbump, count_cons by done.
    lia.
Qed.

(** X16: added up over the properties, the completions of the table are the
    [completed_sessions] of the funnel metrics, the abandonments are its
    [abandoned_sessions], and all stage counts together are its entries of
    the first stage, that is the sessions with a known stage. *)
Theorem X16_property_sums_match_metrics (l : list Session) :
  l ≠ [] →
  ∃ m, calculate_funnel_metrics l = Ok (Metrics m)
       ∧ property_sum PropertyMetrics.completions (property_comparison l)
         = completed_sessions m
       ∧ property_sum PropertyMetrics.abandonments (property_comparison l)
         = abandoned_sessions m
       ∧ stage_entries m !! "widget_activation"
         = Some (property_sum (λ e, dict_total (PropertyMetrics.stages e))
                              (property_comparison l)).
Proof.
  intros Hl. destruct (calculate_funnel_metrics_summary l Hl) as (cr & Heq & _).
  exists (summary l cr). split; [exact Heq|clear Heq].
  cbn [summary completed_sessions abandoned_sessions stage_entries].
  unfold property_comparison.
  rewrite (property_sum_loop PropertyMetrics.completions completed),
          (property_sum_loop PropertyMetrics.abandonments abandoned),
          (property_sum_loop (λ e, dict_total (PropertyMetrics.stages e)) known_stage);
    try done.
  - unfold property_sum. rewrite !map_fold_empty.
    rewrite stage_entries_lookup by apply widget_in_order.
    rewrite entries_widget. split_and!; f_equal; lia.
  - intros s e. cbn [bump_entry PropertyMetrics.stages]. unfold indicator.
    case_decide; [apply dict_total_iadd|lia].
Qed.

Lemma X16_witness :
  [booked; unknown_completed; quick_bouncer] ≠ []
  ∧ ∃ m, calculate_funnel_metrics [booked; unknown_completed; quick_bouncer]
         = Ok (Metrics m)
       ∧ property_sum PropertyMetrics.completions
           (property_comparison [booked; unknown_completed; quick_bouncer])
         = completed_sessions m
       ∧ property_sum PropertyMetrics.abandonments
           (property_comparison [booked; unknown_completed; quick_bouncer])
         = abandoned_sessions m
       ∧ stage_entries m !! "widget_activation"
         = Some (property_sum (λ e, dict_total (PropertyMetrics.stages e))
                   (property_comparison [booked; unknown_completed; quick_bouncer])).
Proof.
  split; [discriminate|].
  apply (X16_property_sums_match_metrics [booked; unknown_completed; quick_bouncer]).
  discriminate.
Defined.

(** ** The ranking of the properties *)

Lemma property_order_snoc (l : list Session) (s : Session) :
  property_order (l ++ [s]) = note_key (property_order l) (property_of s).
Proof. unfold property_order. by rewrite foldl_app. Qed.

Lemma property_order_spec (l : list Session) :
  NoDup (property_order l)
  ∧ ∀ k, k ∈ property_order l ↔ ∃ s, s ∈ l ∧ property_of s = k.
Proof.
  induction l as [|s l [IHnd IHin]] using rev_ind.
  - split; [constructor|]. intros k. split.
    + by intros ?%elem_of_nil.
    + by intros (s & ?%elem_of_nil & _).
  - rewrite property_order_snoc. split; [by apply note_key_NoDup|]. intros k.
    rewrite elem_of_note_key, IHin. split.
    + intros [(s' & Hin & ?)| ->].
      * exists s'. split; [list_mem|done].
      * exists s. split; [list_mem|done].
    + intros (s' & [Hin| ->%list_elem_of_singleton]%elem_of_app & Hk).
      * left. by exists s'.
      * by right.
Qed.

Lemma property_comparison_is_Some (l : list Session) (p : string) :
  is_Some (property_comparison l !! p) ↔ ∃ s, s ∈ l ∧ property_of s = p.
Proof.
  rewrite property_comparison_lookup, <- count_pos.
  case_decide; split; try done; first [by eexists | by intros [? ?]].
Qed.

Lemma property_items_Permutation (l : list Session) :
  dict_items (property_order l) (property_comparison l)
  ≡ₚ map_to_list (property_comparison l).
Proof.
  destruct (property_order_spec l) as [Hnd Hin].
  apply dict_items_Permutation; [done|]. intros k.
  by rewrite Hin, property_comparison_is_Some.
Qed.

(** X17: the comparison lists at most ten properties, in non-increasing order
    of their session counts; every row is an entry of the table, no property
    left out has more sessions than a listed one, and with at most ten
    properties all of them are listed. *)
Theorem X17_ranked_properties (l : list Session) :
  (length (ranked_properties l) ≤ 10)%nat
  ∧ StronglySorted (desc_by (λ item, PropertyMetrics.sessions item.2))
                   (ranked_properties l)
  ∧ (∀ p e, (p, e) ∈ ranked_properties l → property_comparison l !! p = Some e)
  ∧ (∀ p e p' e',
       (p, e) ∈ ranked_properties l →
       property_comparison l !! p' = Some e' →
       (p', e') ∉ ranked_properties l →
       PropertyMetrics.sessions e' ≤ PropertyMetrics.sessions e)
  ∧ ((size (property_comparison l) ≤ 10)%nat →
     ranked_properties l ≡ₚ map_to_list (property_comparison l)).
Proof.
  unfold ranked_properties.
  set (key := λ item : string * PropertyMetrics.t, PropertyMetrics.sessions item.2).
  set (sorted := py_sorted_desc key
                   (dict_items (property_order l) (property_comparison l))).
  assert (sorted ≡ₚ map_to_list (property_comparison l)) as Hperm.
  { unfold sorted. rewrite py_sorted_desc_Permutation.
    apply property_items_Permutation. }
  assert (StronglySorted (desc_by key) sorted) as Hsorted
    by apply py_sorted_desc_sorted.
  split_and!.
  - rewrite length_take. lia.
  - rewrite <- (take_drop 10 sorted) in Hsorted.
    by apply StronglySorted_app_1_l in Hsorted.
  - intros p e Hin. apply elem_of_map_to_list. rewrite <- Hperm.
    by eapply subseteq_take.
  - intros p e p' e' Hin He' Hout.
    apply elem_of_map_to_list in He'. rewrite <- Hperm in He'.
    rewrite <- (take_drop 10 sorted) in He'.
    apply elem_of_app in He' as [?|Hdrop]; [done|].
    apply (sorted_take_drop key sorted 10 (p, e) (p', e') Hsorted Hin Hdrop).
  - intros Hsize. rewrite take_ge; [done|].
    by rewrite Hperm, length_map_to_list.
Qed.

Lemma X17_witness :
  (length (ranked_properties [booked; unknown_stage; widget_only]) ≤ 10)%nat
  ∧ ranked_properties [booked; unknown_stage; widget_only]
    ≡ₚ map_to_list (property_comparison [booked; unknown_stage; widget_only]).
Proof.
  destruct (X17_ranked_properties [booked; unknown_stage; widget_only])
    as (Hlen & _ & _ & _ & Hall).
  split; [exact Hlen|]. apply Hall. by vm_compute.
Defined.

(** ** When the comparison is shown *)

Lemma map_size_two {A} (m : gmap string A) :
  (1 < size m)%nat ↔ ∃ k1 k2, k1 ≠ k2 ∧ is_Some (m !! k1) ∧ is_Some (m !! k2).
Proof.
  split.
  - intros Hsize.
    destruct (map_size_ne_0_lookup_1 m) as [k1 Hk1]; [lia|].
    destruct (map_size_ne_0_lookup_1 (delete k1 m)) as [k2 Hk2].
    { rewrite map_size_delete_Some by done. lia. }
    exists k1, k2. destruct (decide (k1 = k2)) as [->|Hne].
    + rewrite lookup_delete_eq in Hk2. by destruct Hk2.
    + by rewrite lookup_delete_ne in Hk2.
  - intros (k1 & k2 & Hne & Hk1 & Hk2).
    assert (size (delete k1 m) ≠ 0%nat) as Hsize.
    { apply (map_size_ne_0_lookup_2 _ k2). by rewrite lookup_delete_ne. }
    rewrite map_size_delete_Some in Hsize by done. lia.
Qed.

(** X18: the property comparison is printed exactly when the sessions carry
    at least two different property ids (a missing id counting as
    "Unknown"); sessions of a single property never produce it. *)
Theorem X18_comparison_needs_two_properties (l : list Session) :
  comparison_shown l = true
  ↔ ∃ s1 s2, s1 ∈ l ∧ s2 ∈ l ∧ property_of s1 ≠ property_of s2.
Proof.
  unfold comparison_shown. rewrite bool_decide_eq_true, map_size_two. split.
  - intros (k1 & k2 & Hne & (s1 & ? & <-)%property_comparison_is_Some
                       & (s2 & ? & <-)%property_comparison_is_Some).
    by exists s1, s2.
  - intros (s1 & s2 & Hs1 & Hs2 & Hne).
    exists (property_of s1), (property_of s2).
    split; [done|]. split; apply property_comparison_is_Some; eauto.
Qed.

(** * Properties of the display functions *)

Lemma py_for_collect {A B} (body : list B → A → Py (list B)) (h : A → B)
    (xs : list A) (acc : list B) :
  (∀ rows x, x ∈ xs → body rows x = Ok (rows ++ [h x])) →
  py_for xs body acc = Ok (acc ++ (h <$> xs)).
Proof.
  revert acc. induction xs as [|x xs IH]; intros acc Hbody.
  - cbn [py_for fmap list_fmap]. by rewrite app_nil_r.
  - cbn [py_for]. rewrite Hbody by list_mem. py_simpl.
    rewrite IH by (intros rows x' Hx'; apply Hbody; list_mem).
    rewrite fmap_cons. by rewrite <- app_assoc.
Qed.

Lemma quotient_mono (a b w : Z) : a ≤ b → 0 < w → (quotient a w <= quotient b w)%Q.
Proof.
  intros Hab Hw. unfold quotient, Qdiv. apply Qmult_le_compat_r.
  - by rewrite <- Zle_Qle.
  - apply Qinv_le_0_compat. replace 0%Q with (inject_Z 0) by done.
    rewrite <- Zle_Qle. lia.
Qed.

(** ** The funnel rows *)

Lemma funnel_row_expected (m : FunnelMetrics) (i : nat) (x : string) :
  has_stage_keys (stage_entries m) → has_stage_keys (stage_completions m) →
  has_stage_keys (stage_abandonments m) →
  STAGE_ORDER !! i = Some x →
  funnel_row (stage_entries m) (stage_completions m) (stage_abandonments m)
             (conversion_rates m) i x
  = Ok (expected_row m i x).
Proof.
  intros He Hc Ha Hi.
  assert (x ∈ STAGE_ORDER) as Hx by (by eapply list_elem_of_lookup_2).
  destruct (STAGE_NAMES_lookup x Hx) as [name Hname].
  destruct (He x Hx) as [e Hex]. destruct (Hc x Hx) as [c Hcx].
  destruct (Ha x Hx) as [a Hax].
  destruct (He "widget_activation" widget_in_order) as [w Hw].
  unfold funnel_row, expected_row, dict_getitem, list_getitem.
  rewrite Hname, Hex, Hcx, Hax, Hw. py_simpl. cbn [default from_option id].
  rewrite Nat.add_1_r.
  assert ((i < length STAGE_ORDER - 1)%nat ↔ is_Some (STAGE_ORDER !! S i)) as Hnext.
  { rewrite lookup_lt_is_Some. simpl. lia. }
  destruct (decide (w > 0)) as [Hpos|Hzero];
    [rewrite py_truediv_pos by done|]; py_simpl;
    (destruct (STAGE_ORDER !! S i) as [y|] eqn:Hy;
     [rewrite decide_True by (apply Hnext; eauto)
     |rewrite decide_False by (intros [? ?]%Hnext; done)]);
    py_simpl; done.
Qed.

Lemma display_funnel_rows (m : FunnelMetrics) :
  has_stage_keys (stage_entries m) → has_stage_keys (stage_completions m) →
  has_stage_keys (stage_abandonments m) →
  display_funnel_visualization (Metrics m)
  = Ok (imap (expected_row m) STAGE_ORDER).
Proof.
  intros He Hc Ha. unfold display_funnel_visualization.
  cbn [metrics_falsy metrics_getitem]. py_simpl.
  rewrite (py_for_collect _ (λ p, expected_row m p.1 p.2)).
  - cbn [app]. by rewrite fmap_imap.
  - intros rows [i x] Hin. apply list_elem_of_lookup_1 in Hin as [j Hj].
    rewrite list_lookup_imap in Hj.
    destruct (STAGE_ORDER !! j) as [y|] eqn:Hy; [|done].
    simpl in Hj. injection Hj as <- <-.
    by rewrite (funnel_row_expected m j y He Hc Ha Hy).
Qed.

Lemma summary_has_stage_keys (l : list Session) (cr : gmap string Q) :
  has_stage_keys (stage_entries (summary l cr))
  ∧ has_stage_keys (stage_completions (summary l cr))
  ∧ has_stage_keys (stage_abandonments (summary l cr)).
Proof.
  split_and!; intros x Hx; destruct (stage_counters_lookup l x Hx) as (He & Hc & Ha);
    cbn [summary stage_entries stage_completions stage_abandonments]; eauto.
Qed.

(** X19: for the metrics of any non-empty session list,
    [display_funnel_visualization] raises nothing and prints one row per
    stage, in stage order, carrying the stage's display name and its three
    counters; the fill ratio behind the bar lies in [0, 1] and never grows
    from one row to the next, and every row but the last carries the
    conversion rate to the next stage (0 when the metrics hold none). *)
Theorem X19_funnel_rows (l : list Session) :
  l ≠ [] →
  ∃ m rows,
    calculate_funnel_metrics l = Ok (Metrics m)
    ∧ display_funnel_visualization (Metrics m) = Ok rows
    ∧ length rows = length STAGE_ORDER
    ∧ (∀ i x, STAGE_ORDER !! i = Some x →
         ∃ row, rows !! i = Some row
                ∧ STAGE_NAMES !! x = Some (row_name row)
                ∧ stage_entries m !! x = Some (row_entries row)
                ∧ stage_completions m !! x = Some (row_completions row)
                ∧ stage_abandonments m !! x = Some (row_abandonments row)
                ∧ (0 <= row_fill row ∧ row_fill row <= 1)%Q
                ∧ row_rate row
                  = (λ y, displayed_rate (conversion_rates m) (conv_key x y))
                      <$> STAGE_ORDER !! S i)
    ∧ (∀ i row row', rows !! i = Some row → rows !! S i = Some row' →
         (row_fill row' <= row_fill row)%Q).
Proof.
  intros Hl. destruct (calculate_funnel_metrics_summary l Hl) as (cr & Heq & _).
  destruct (summary_has_stage_keys l cr) as (He & Hc & Ha).
  exists (summary l cr), (imap (expected_row (summary l cr)) STAGE_ORDER).
  split; [exact Heq|clear Heq]. split; [by apply display_funnel_rows|].
  split; [by rewrite length_imap|].
  assert (∀ x, x ∈ STAGE_ORDER →
            stage_entries (summary l cr) !! x = Some (entries l x)) as Hentries.
  { intros x Hx. cbn [summary stage_entries]. by apply stage_entries_lookup. }
  assert (∀ x, entries l x ≤ entries l "widget_activation") as Hle.
  { intros x. rewrite entries_widget. apply count_mono.
    intros s _. apply entered_known. }
  assert (∀ i x, STAGE_ORDER !! i = Some x →
            row_fill (expected_row (summary l cr) i x)
            = if decide (entries l "widget_activation" > 0)
              then quotient (entries l x) (entries l "widget_activation")
              else 0%Q) as Hfill.
  { intros i x Hi. cbn [expected_row row_fill].
    rewrite !Hentries by (apply widget_in_order || by eapply list_elem_of_lookup_2).
    done. }
  split.
  - intros i x Hi. assert (x ∈ STAGE_ORDER) as Hx by (by eapply list_elem_of_lookup_2).
    exists (expected_row (summary l cr) i x).
    split; [by rewrite list_lookup_imap, Hi|].
    rewrite (Hfill i x Hi).
    destruct (STAGE_NAMES_lookup x Hx) as [name Hname].
    destruct (He x Hx) as [e Hex]. destruct (Hc x Hx) as [c Hcx].
    destruct (Ha x Hx) as [a Hax].
    cbn [expected_row row_name row_entries row_completions row_abandonments row_rate].
    rewrite Hname, Hex, Hcx, Hax. split_and!; try done.
    + case_decide; [|done]. apply quotient_nonneg; [apply entries_nonneg|lia].
    + case_decide; [|done]. apply quotient_le_1; [apply Hle|lia].
  - intros i row row' Hrow Hrow'.
    rewrite list_lookup_imap in Hrow, Hrow'.
    destruct (STAGE_ORDER !! i) as [x|] eqn:Hi; [|done].
    destruct (STAGE_ORDER !! S i) as [y|] eqn:Hi'; [|done].
    simpl in Hrow, Hrow'. injection Hrow as <-. injection Hrow' as <-.
    rewrite (Hfill i x Hi), (Hfill (S i) y Hi').
    case_decide; [|done]. apply quotient_mono; [|lia].
    apply entries_adjacent. by exists i.
Qed.

Lemma X19_witness :
  [booked; widget_only] ≠ []
  ∧ ∃ m rows,
    calculate_funnel_metrics [booked; widget_only] = Ok (Metrics m)
    ∧ display_funnel_visualization (Metrics m) = Ok rows
    ∧ length rows = length STAGE_ORDER
    ∧ (∀ i x, STAGE_ORDER !! i = Some x →
         ∃ row, rows !! i = Some row
                ∧ STAGE_NAMES !! x = Some (row_name row)
                ∧ stage_entries m !! x = Some (row_entries row)
                ∧ stage_completions m !! x = Some (row_completions row)
                ∧ stage_abandonments m !! x = Some (row_abandonments row)
                ∧ (0 <= row_fill row ∧ row_fill row <= 1)%Q
                ∧ row_rate row
                  = (λ y, displayed_rate (conversion_rates m) (conv_key x y))
                      <$> STAGE_ORDER !! S i)
    ∧ (∀ i row row', rows !! i = Some row → rows !! S i = Some row' →
         (row_fill row' <= row_fill row)%Q).
Proof.
  split; [discriminate|].
  apply (X19_funnel_rows [booked; widget_only]). discriminate.
Defined.

(** ** The key metrics *)

Lemma key_rows_from (m : FunnelMetrics) (ks : list string) (rows : list (string * Q))
    (body : list (string * Q) → string → Py (list (string * Q))) :
  (∀ rows stage,
     body rows stage =
       (avg' ← metrics_getitem (Metrics m) avg_durations;
        if decide (is_Some (avg' !! stage)) then
          avg'' ← metrics_getitem (Metrics m) avg_durations;
          duration ← dict_getitem avg'' stage;
          name ← dict_getitem STAGE_NAMES stage;
          Ok (rows ++ [(name, duration)])
        else Ok rows)) →
  ks ⊆ STAGE_ORDER →
  py_for ks body rows
  = Ok (rows ++ omap (λ x, match STAGE_NAMES !! x, avg_durations m !! x with
                           | Some name, Some d => Some (name, d)
                           | _, _ => None
                           end) ks).
Proof.
  intros Hbody. revert rows. induction ks as [|k ks IH]; intros rows Hsub.
  - cbn [py_for omap list_omap]. by rewrite app_nil_r.
  - cbn [py_for omap list_omap]. rewrite Hbody. cbn [metrics_getitem]. py_simpl.
    destruct (STAGE_NAMES_lookup k) as [name Hname]; [apply Hsub; list_mem|].
    unfold dict_getitem. rewrite Hname.
    destruct (avg_durations m !! k) as [d|] eqn:Hd.
    + rewrite decide_True by eauto. py_simpl.
      rewrite IH by (intros x Hx; apply Hsub; list_mem).
      by rewrite <- app_assoc.
    + rewrite decide_False by (by intros []). py_simpl.
      apply IH. intros x Hx. apply Hsub. list_mem.
Qed.

Lemma display_key_metrics_full (m : FunnelMetrics) :
  display_key_metrics (Metrics m)
  = Ok (total_sessions m, completed_sessions m, abandoned_sessions m,
        overall_conversion m,
        omap (λ x, match STAGE_NAMES !! x, avg_durations m !! x with
                   | Some name, Some d => Some (name, d)
                   | _, _ => None
                   end) STAGE_ORDER).
Proof.
  unfold display_key_metrics. cbn [metrics_getitem metrics_get]. py_simpl.
  destruct (decide (avg_durations m ≠ ∅)) as [Hne|Heq].
  - rewrite (key_rows_from m) by done. py_simpl. done.
  - py_simpl. do 2 f_equal.
    assert (avg_durations m = ∅) as -> by (by destruct (decide (avg_durations m = ∅))).
    assert (∀ ks : list string,
              omap (λ x, match STAGE_NAMES !! x, (∅ : gmap string Q) !! x with
                         | Some name, Some d => Some (name, d)
                         | _, _ => None
                         end) ks =@{list (string * Q)} []) as Hks; [|by rewrite Hks].
    induction ks as [|k ks IH]; [done|]. cbn [omap list_omap].
    rewrite lookup_empty. by destruct (STAGE_NAMES !! k).
Qed.

(** X20: on a metrics dict with its ten keys [display_key_metrics] raises
    nothing, whatever the values: it prints the four headline numbers and,
    in stage order, one duration row for each stage that has an average.
    On the empty dict, which [calculate_funnel_metrics] returns for no
    sessions, it raises [KeyError], while [display_funnel_visualization]
    prints no row for it. *)
Theorem X20_key_metrics_on_full_and_empty_dict (m : FunnelMetrics) :
  display_key_metrics (Metrics m)
  = Ok (total_sessions m, completed_sessions m, abandoned_sessions m,
        overall_conversion m,
        omap (λ x, match STAGE_NAMES !! x, avg_durations m !! x with
                   | Some name, Some d => Some (name, d)
                   | _, _ => None
                   end) STAGE_ORDER)
  ∧ display_key_metrics EmptyDict = Raise KeyError
  ∧ display_funnel_visualization EmptyDict = Ok [].
Proof. split; [apply display_key_metrics_full|]. by split. Qed.

(** ** One pass of the dashboard *)






(** * Completions along the funnel *)

(** X22: [stage_completions] never grows from a stage to the next one, and
    its value at the first stage is the number of completed sessions with a
    known stage: [completed_sessions] exceeds it by the completed sessions
    whose furthest stage is not one of the five. *)
Theorem X22_stage_completions_shape (l : list Session) :
  l ≠ [] →
  ∃ m, calculate_funnel_metrics l = Ok (Metrics m)
       ∧ (∀ a b, adjacent a b →
            ∃ ca cb, stage_completions m !! a = Some ca
                     ∧ stage_completions m !! b = Some cb
                     ∧ cb ≤ ca)
       ∧ ∃ c, stage_completions m !! "widget_activation" = Some c
              ∧ completed_sessions m
                = c + count (λ s, completed s ∧ ¬ known_stage s) l.
Proof.
  intros Hl. destruct (calculate_funnel_metrics_summary l Hl) as (cr & Heq & _).
  exists (summary l cr). split; [exact Heq|clear Heq].
  cbn [summary stage_completions completed_sessions]. split.
  - intros a b Hab. destruct (Hab) as [i Hi].
    destruct (adjacent_at_in _ _ _ Hi) as [Ha Hb].
    destruct (stage_counters_lookup l a Ha) as (_ & Hca & _).
    destruct (stage_counters_lookup l b Hb) as (_ & Hcb & _).
    eexists _, _. split; [exact Hca|]. split; [exact Hcb|].
    apply count_mono. intros s _ [Hc Hin]. split; [done|].
    by apply (entered_prefix_closed s a b).
  - destruct (stage_counters_lookup l "widget_activation" widget_in_order)
      as (_ & Hc & _).
    eexists. split; [exact Hc|].
    apply count_split. intros s _. unfold indicator.
    pose proof (entered_widget s).
    repeat case_decide; try lia; exfalso; tauto.
Qed.

Lemma X22_witness :
  [booked; unknown_completed] ≠ []
  ∧ ∃ m, calculate_funnel_metrics [booked; unknown_completed] = Ok (Metrics m)
       ∧ (∀ a b, adjacent a b →
            ∃ ca cb, stage_completions m !! a = Some ca
                     ∧ stage_completions m !! b = Some cb
                     ∧ cb ≤ ca)
       ∧ ∃ c, stage_completions m !! "widget_activation" = Some c
              ∧ completed_sessions m
                = c + count (λ s, completed s ∧ ¬ known_stage s)
                            [booked; unknown_completed].
Proof.
  split; [discriminate|].
  apply (X22_stage_completions_shape [booked; unknown_completed]). discriminate.
Defined.
